(** * Average impressions of a Threads account: a model of [main.py]

    The program is one sequential pipeline: [get_user_posts] asks the API
    for the recent posts, [get_post_views] asks for the view count of one
    post, [get_average_impressions] loops over the posts, sleeps after each
    lookup and divides the sum of the views by their number.  All requests
    go through [make_api_request].

    The embedding is shallow.  Python values are the type [pyval], raised
    exceptions are the type [exn], and a Python function is a state
    transformer [M A]: it reads and extends the run's [state] (the number of
    HTTP requests made so far and the chronological [trace] of observable
    events: log records, requests, sleeps) and either returns or raises.
    Everything outside the program (the HTTP server, the clock, the version
    of the [requests] library) is a [world].

    Integers are unbounded, as in Python.  Floats are binary64 numbers and
    the two float operations the program performs, [+] and [/], are those of
    [SpecFloat], with the [OverflowError] Python raises where an integer or
    an integer quotient is beyond the range of a float.  An f-string is kept
    as its pieces; [Py.render] gives its text where no float or container
    has to be formatted. *)

From Stdlib Require Import ZArith List String Bool Lia.
From Stdlib Require Import SpecFloat.
From Stdlib Require Import Decimal DecimalString.
Import ListNotations.

Local Open Scope string_scope.
Local Open Scope list_scope.
Local Open Scope Z_scope.

Set Warnings "-register-all".

(** ** Python values *)

(** The values [json.loads] can produce, which are also all the values the
    program handles.  A [float] is an IEEE 754 binary64 number, given by the
    standard library's [spec_float].  A [dict] is the list of its items in
    insertion order and a key is looked up from the front; the keys of a
    parsed JSON object are strings. *)
Inductive pyval : Type :=
| PNone
| PBool (b : bool)
| PInt (z : Z)
| PFloat (f : spec_float)
| PStr (s : string)
| PList (items : list pyval)
| PDict (items : list (string * pyval)).

(** An f-string, kept as its pieces: literal text, a value formatted with
    [str()], and a value formatted with [:.2f]. *)
Inductive frag : Type :=
| Lit (s : string)
| Fmt (v : pyval)
| Fmt2f (v : pyval).

Definition text := list frag.

(** Exceptions.  [HTTPError], [ConnectionError] and [JSONDecodeError] are
    those of [requests]; the first two derive from
    [requests.RequestException], and [JSONDecodeError] derives from
    [ValueError] and, from version 2.27 of the library on, from
    [requests.RequestException] as well. *)
Inductive exn : Type :=
| ThreadsApiError (message : text)
| HTTPError (message : string)
| ConnectionError (message : string)
| JSONDecodeError (message : string)
| KeyError
| IndexError
| TypeError
| AttributeError
| UnboundLocalError
| OverflowError
| ZeroDivisionError.

Inductive outcome (A : Type) : Type :=
| Ret (a : A)
| Raise (e : exn).

Arguments Ret {A} a.
Arguments Raise {A} e.

(** [str(e)] for the exceptions of [requests]. *)
Definition exception_text (e : exn) : string :=
  match e with
  | HTTPError m | ConnectionError m | JSONDecodeError m => m
  | _ => ""
  end.

(** ** Operations of the language *)

Module Py.

Definition prec : Z := 53.
Definition emax : Z := 1024.

Definition pure_bind {A B : Type} (x : outcome A) (k : A -> outcome B) : outcome B :=
  match x with
  | Ret a => k a
  | Raise e => Raise e
  end.

(** [x is not None] *)
Definition is_not_None (x : pyval) : bool :=
  match x with
  | PNone => false
  | _ => true
  end.

(** Truth value of an object, as tested by [if x:]. *)
Definition truthy (x : pyval) : bool :=
  match x with
  | PNone => false
  | PBool b => b
  | PInt z => negb (z =? 0)
  | PFloat (S754_zero _) => false
  | PFloat _ => true
  | PStr s => negb (String.length s =? 0)%nat
  | PList l => negb (Nat.eqb (List.length l) 0)
  | PDict d => negb (Nat.eqb (List.length d) 0)
  end.

Fixpoint dict_lookup (d : list (string * pyval)) (k : string) : option pyval :=
  match d with
  | [] => None
  | (k', v) :: rest => if String.eqb k' k then Some v else dict_lookup rest k
  end.

(** [obj.get(key, default)]: only a dict has the method. *)
Definition get (obj : pyval) (key : string) (default : pyval) : outcome pyval :=
  match obj with
  | PDict d =>
      match dict_lookup d key with
      | Some v => Ret v
      | None => Ret default
      end
  | _ => Raise AttributeError
  end.

(** The two kinds of subscript the program writes: a string literal and
    the integer literal [0]. *)
Inductive subscript : Type :=
| KStr (k : string)
| KInt (i : Z).

(** Position [i] of a sequence of length [n], negative positions counting
    from the end. *)
Definition seq_index (n : nat) (i : Z) : option nat :=
  let j := if i <? 0 then i + Z.of_nat n else i in
  if (0 <=? j) && (j <? Z.of_nat n) then Some (Z.to_nat j) else None.

Definition string_item (s : string) (n : nat) : option pyval :=
  match String.get n s with
  | Some c => Some (PStr (String c EmptyString))
  | None => None
  end.

(** [obj[key]] *)
Definition getitem (obj : pyval) (key : subscript) : outcome pyval :=
  match obj, key with
  | PDict d, KStr k =>
      match dict_lookup d k with
      | Some v => Ret v
      | None => Raise KeyError
      end
  | PDict _, KInt _ => Raise KeyError
  | PList l, KInt i =>
      match seq_index (List.length l) i with
      | Some n =>
          match nth_error l n with
          | Some v => Ret v
          | None => Raise IndexError
          end
      | None => Raise IndexError
      end
  | PStr s, KInt i =>
      match seq_index (String.length s) i with
      | Some n =>
          match string_item s n with
          | Some v => Ret v
          | None => Raise IndexError
          end
      | None => Raise IndexError
      end
  | PList _, KStr _ => Raise TypeError
  | PStr _, KStr _ => Raise TypeError
  | _, _ => Raise TypeError
  end.

Fixpoint string_chars (s : string) : list pyval :=
  match s with
  | EmptyString => []
  | String c rest => PStr (String c EmptyString) :: string_chars rest
  end.

Definition dict_keys (d : list (string * pyval)) : list string :=
  nodup string_dec (map fst d).

(** The elements [for x in obj] visits; none of the objects is changed
    while the program iterates over it. *)
Definition iter (obj : pyval) : outcome (list pyval) :=
  match obj with
  | PList l => Ret l
  | PStr s => Ret (string_chars s)
  | PDict d => Ret (map PStr (dict_keys d))
  | _ => Raise TypeError
  end.

(** [len(obj)] *)
Definition len (obj : pyval) : outcome Z :=
  match obj with
  | PList l => Ret (Z.of_nat (List.length l))
  | PStr s => Ret (Z.of_nat (String.length s))
  | PDict d => Ret (Z.of_nat (List.length (dict_keys d)))
  | _ => Raise TypeError
  end.

(** An [int] as the float that has exactly its value, before rounding. *)
Definition exact (z : Z) : spec_float :=
  match z with
  | Z0 => S754_zero false
  | Zpos p => S754_finite false p 0
  | Zneg p => S754_finite true p 0
  end.

Definition finite_or_overflow (f : spec_float) : outcome spec_float :=
  match f with
  | S754_infinity _ => Raise OverflowError
  | _ => Ret f
  end.

(** [float(z)]: the nearest float, ties to even; an [int] beyond the range
    of a float raises [OverflowError]. *)
Definition float_of_int (z : Z) : outcome spec_float :=
  finite_or_overflow (binary_normalize prec emax z 0 false).

(** [a / b] on two [int]s: the correctly rounded quotient. *)
Definition int_true_div (a b : Z) : outcome spec_float :=
  if b =? 0 then Raise ZeroDivisionError
  else finite_or_overflow (SFdiv prec emax (exact a) (exact b)).

(** [a / b] on two [float]s. *)
Definition float_true_div (f g : spec_float) : outcome spec_float :=
  match g with
  | S754_zero _ => Raise ZeroDivisionError
  | _ => Ret (SFdiv prec emax f g)
  end.

(** [bool] is a subclass of [int]. *)
Definition as_int (x : pyval) : option Z :=
  match x with
  | PInt z => Some z
  | PBool b => Some (if b then 1 else 0)
  | _ => None
  end.

Definition as_float (x : pyval) : option (outcome spec_float) :=
  match x with
  | PFloat f => Some (Ret f)
  | _ =>
      match as_int x with
      | Some z => Some (float_of_int z)
      | None => None
      end
  end.

(** [x + y] *)
Definition add (x y : pyval) : outcome pyval :=
  match as_int x, as_int y with
  | Some a, Some b => Ret (PInt (a + b))
  | _, _ =>
      match as_float x, as_float y with
      | Some fx, Some fy =>
          pure_bind fx (fun f => pure_bind fy (fun g =>
            Ret (PFloat (SFadd prec emax f g))))
      | _, _ =>
          match x, y with
          | PStr s, PStr t => Ret (PStr (s ++ t)%string)
          | PList l, PList m => Ret (PList (l ++ m))
          | _, _ => Raise TypeError
          end
      end
  end.

(** [x / y] *)
Definition truediv (x y : pyval) : outcome pyval :=
  match as_int x, as_int y with
  | Some a, Some b => pure_bind (int_true_div a b) (fun q => Ret (PFloat q))
  | _, _ =>
      match as_float x, as_float y with
      | Some fx, Some fy =>
          pure_bind fx (fun f => pure_bind fy (fun g =>
            pure_bind (float_true_div f g) (fun q => Ret (PFloat q))))
      | _, _ => Raise TypeError
      end
  end.

(** [str(x)], for the values whose text takes no float or container
    formatting. *)
Definition str (x : pyval) : option string :=
  match x with
  | PNone => Some "None"
  | PBool true => Some "True"
  | PBool false => Some "False"
  | PInt z => Some (NilZero.string_of_int (Z.to_int z))
  | PStr s => Some s
  | _ => None
  end.

(** The text of an f-string, when [str] covers all its values. *)
Fixpoint render (t : text) : option string :=
  match t with
  | [] => Some ""
  | Lit s :: rest =>
      match render rest with
      | Some r => Some (s ++ r)%string
      | None => None
      end
  | Fmt v :: rest =>
      match str v, render rest with
      | Some s, Some r => Some (s ++ r)%string
      | _, _ => None
      end
  | Fmt2f _ :: _ => None
  end.

End Py.

(** ** The run: state, events and the monad *)

Inductive level : Type := INFO | WARNING | ERROR.

Definition query := list (string * pyval).

Inductive event : Type :=
| Log (lvl : level) (message : text)
| HttpGet (url : text) (params : query)
| Sleep (seconds : spec_float).

Record state : Type := mkState {
  calls : nat;
  trace : list event
}.

Definition M (A : Type) : Type := state -> outcome A * state.

Definition ret {A : Type} (a : A) : M A := fun s => (Ret a, s).

Definition raise {A : Type} (e : exn) : M A := fun s => (Raise e, s).

Definition bind {A B : Type} (c : M A) (k : A -> M B) : M B :=
  fun s =>
    match c s with
    | (Ret a, s') => k a s'
    | (Raise e, s') => (Raise e, s')
    end.

Notation "x <- c ;; k" := (bind c (fun x => k))
  (at level 61, c at next level, right associativity).
Notation "c ;;; k" := (bind c (fun _ => k))
  (at level 61, right associativity).

(** A pure operation of the language used inside a function. *)
Definition lift {A : Type} (x : outcome A) : M A := fun s => (x, s).

(** [try: body  except <classes>: handler]; the exception is handed to the
    handler ([as e]). *)
Definition try_except {A : Type} (body : M A) (classes : exn -> bool)
    (handler : exn -> M A) : M A :=
  fun s =>
    match body s with
    | (Ret a, s') => (Ret a, s')
    | (Raise e, s') => if classes e then handler e s' else (Raise e, s')
    end.

Definition emit (ev : event) : M unit :=
  fun s => (Ret tt, mkState (calls s) (trace s ++ [ev])).

(** [logger.info], [logger.warning], [logger.error] *)
Definition log (lvl : level) (message : text) : M unit := emit (Log lvl message).

(** [time.sleep] *)
Definition sleep (seconds : spec_float) : M unit := emit (Sleep seconds).

(** Reading a local name that may never have been assigned. *)
Definition local {A : Type} (x : option A) : M A :=
  match x with
  | Some a => ret a
  | None => raise UnboundLocalError
  end.

(** ** The [requests] library and the outside world *)

Record response : Type := mkResponse {
  status_code : Z;
  (** [str()] of the [HTTPError] that [raise_for_status] raises *)
  http_error_text : string;
  (** what [json()] parses the body to, [None] when the body is not JSON
      and [json()] raises [JSONDecodeError]; a body on which [json()]
      ends otherwise (an integer literal beyond the digit limit of the
      interpreter, nesting beyond its recursion limit) is outside the
      model *)
  body : option pyval;
  (** [str()] of the [JSONDecodeError] that [json()] raises *)
  json_error_text : string
}.

Inductive http_outcome : Type :=
| Received (r : response)
| NoResponse (error_text : string).

Record world : Type := mkWorld {
  (** what the [n]-th request of the run (from 0) meets *)
  http : nat -> text -> query -> http_outcome;
  (** [(datetime.now() - timedelta(days=d)).strftime('%Y-%m-%d')];
      [None] when the date arithmetic raises [OverflowError] *)
  date_days_ago : Z -> option string;
  (** [datetime.now().strftime('%Y-%m-%d')] *)
  date_today : string;
  (** [requests] is 2.27 or later *)
  json_error_is_request_exception : bool
}.

Definition is_ThreadsApiError (e : exn) : bool :=
  match e with
  | ThreadsApiError _ => true
  | _ => false
  end.

Definition is_ValueError (e : exn) : bool :=
  match e with
  | JSONDecodeError _ => true
  | _ => false
  end.

(** [except requests.RequestException] *)
Definition is_RequestException (new_requests : bool) (e : exn) : bool :=
  match e with
  | HTTPError _ | ConnectionError _ => true
  | JSONDecodeError _ => new_requests
  | _ => false
  end.

(** ** The program *)

Section Program.

Variable w : world.

(** [requests.get(url, params=params)]: the request is sent; either a
    response comes back or the library raises. *)
Definition requests_get (url : text) (params : query) : M response :=
  fun s =>
    let s' := mkState (S (calls s)) (trace s ++ [HttpGet url params]) in
    match http w (calls s) url params with
    | Received r => (Ret r, s')
    | NoResponse msg => (Raise (ConnectionError msg), s')
    end.

(** The status codes [raise_for_status] takes for an error: 4xx and 5xx. *)
Definition error_status (r : response) : bool :=
  (400 <=? status_code r) && (status_code r <? 600).

(** [response.raise_for_status()] *)
Definition raise_for_status (r : response) : M unit :=
  if error_status r then raise (HTTPError (http_error_text r)) else ret tt.

(** [response.json()], for a body that parses and for one that is not
    JSON *)
Definition json (r : response) : M pyval :=
  match body r with
  | Some v => ret v
  | None => raise (JSONDecodeError (json_error_text r))
  end.

(** [ThreadsApiError(f"API request to {url} failed")] *)
Definition api_request_failed (url : text) : exn :=
  ThreadsApiError ([Lit "API request to "] ++ url ++ [Lit " failed"]).

(** The [except requests.RequestException as e] block of
    [make_api_request].  [response] is the local name of the function,
    assigned only when [requests.get] returned. *)
Definition request_failed (url : text) (response : option response) (e : exn)
    : M pyval :=
  let error_info := PDict [] in
  r <- local response ;;
  error_info <-
    (if status_code r =? 400 then
       try_except
         (b <- json r ;; lift (Py.get b "error" (PDict [])))
         is_ValueError
         (fun _ => ret error_info)
     else ret error_info) ;;
  (if Py.truthy error_info then
     message <- lift (Py.get error_info "message" (PStr (exception_text e))) ;;
     let error_message := [Lit "API request failed: "; Fmt message] in
     error_code <- lift (Py.get error_info "code" PNone) ;;
     error_subcode <- lift (Py.get error_info "error_subcode" PNone) ;;
     log ERROR (error_message ++
                [Lit " (Code: "; Fmt error_code; Lit ", Subcode: ";
                 Fmt error_subcode; Lit ")"])
   else
     log ERROR [Lit "API request failed: "; Lit (exception_text e)]) ;;;
  raise (api_request_failed url).

(** [make_api_request]: the [try] block runs [requests.get],
    [raise_for_status] and [json] in turn; an exception of [requests] from
    any of the three goes to the handler, with [response] assigned or not
    according to where it arose. *)
Definition make_api_request (url : text) (params : query) : M pyval :=
  fun s =>
    let caught := is_RequestException (json_error_is_request_exception w) in
    match requests_get url params s with
    | (Raise e, s1) =>
        if caught e then request_failed url None e s1 else (Raise e, s1)
    | (Ret response, s1) =>
        try_except
          (raise_for_status response ;;; json response)
          caught
          (request_failed url (Some response))
          s1
    end.

Definition posts_url : text := [Lit "https://graph.threads.net/v1.0/me/threads"].

Definition posts_fields : string :=
  "id,media_product_type,media_type,media_url,permalink,owner,username,text,timestamp,shortcode,thumbnail_url,children,is_quote_post".

(** The [params] dict of [get_user_posts]. *)
Definition posts_params (since_date until_date access_token : string) : query :=
  [("fields", PStr posts_fields);
   ("since", PStr since_date);
   ("until", PStr until_date);
   ("limit", PInt 100);
   ("access_token", PStr access_token)].

(** [get_user_posts]: the date window is computed before the [try]; the
    [try] block makes the request, takes [data.get("data", [])] and logs
    its length; only [ThreadsApiError] is caught. *)
Definition get_user_posts (access_token : string) (days : Z) (username : string)
    : M pyval :=
  log INFO [Lit "Fetching posts for user '"; Fmt (PStr username);
            Lit "' for the last "; Fmt (PInt days); Lit " days"] ;;;
  let url := posts_url in
  since_date <-
    match date_days_ago w days with
    | Some d => ret d
    | None => raise OverflowError
    end ;;
  let until_date := date_today w in
  let params := posts_params since_date until_date access_token in
  try_except
    (data <- make_api_request url params ;;
     posts <- lift (Py.get data "data" (PList [])) ;;
     n <- lift (Py.len posts) ;;
     log INFO [Lit "Retrieved "; Fmt (PInt n); Lit " posts for user '";
               Fmt (PStr username); Lit "'"] ;;;
     ret posts)
    is_ThreadsApiError
    (fun _ =>
       log ERROR [Lit "Failed to fetch posts for user '"; Fmt (PStr username);
                  Lit "'"] ;;;
       ret (PList [])).

Definition insights_url (media_id : pyval) : text :=
  [Lit "https://graph.threads.net/v1.0/"; Fmt media_id; Lit "/insights"].

(** The [params] dict of [get_post_views]. *)
Definition views_params (access_token : string) : query :=
  [("metric", PStr "views"); ("access_token", PStr access_token)].

(** [except (ThreadsApiError, KeyError, IndexError)] *)
Definition views_caught (e : exn) : bool :=
  match e with
  | ThreadsApiError _ | KeyError | IndexError => true
  | _ => false
  end.

(** [data["data"][0]["values"][0]["value"]] *)
Definition views_path (data : pyval) : outcome pyval :=
  Py.pure_bind (Py.getitem data (Py.KStr "data")) (fun d =>
  Py.pure_bind (Py.getitem d (Py.KInt 0)) (fun d0 =>
  Py.pure_bind (Py.getitem d0 (Py.KStr "values")) (fun vs =>
  Py.pure_bind (Py.getitem vs (Py.KInt 0)) (fun v0 =>
  Py.getitem v0 (Py.KStr "value"))))).

(** [get_post_views]: [media_id] is whatever [post['id']] was. *)
Definition get_post_views (media_id : pyval) (access_token : string)
    (username : string) : M pyval :=
  log INFO [Lit "Fetching views for post "; Fmt media_id; Lit " (User: '";
            Fmt (PStr username); Lit "')"] ;;;
  let url := insights_url media_id in
  let params := views_params access_token in
  try_except
    (data <- make_api_request url params ;;
     views <- lift (views_path data) ;;
     log INFO [Lit "Post "; Fmt media_id; Lit " has "; Fmt views;
               Lit " views (User: '"; Fmt (PStr username); Lit "')"] ;;;
     ret views)
    views_caught
    (fun _ =>
       log ERROR [Lit "Failed to fetch views for post "; Fmt media_id;
                  Lit " (User: '"; Fmt (PStr username); Lit "')"] ;;;
       ret PNone).

(** The float literal [0.5]. *)
Definition pacing_delay : spec_float := S754_finite false 4503599627370496 (-53).

(** The [for post in posts] loop of [get_average_impressions], with its two
    accumulators. *)
Fixpoint for_each_post (access_token username : string) (posts : list pyval)
    (total_views : pyval) (valid_post_count : Z) : M (pyval * Z) :=
  match posts with
  | [] => ret (total_views, valid_post_count)
  | post :: rest =>
      media_id <- lift (Py.getitem post (Py.KStr "id")) ;;
      views <- get_post_views media_id access_token username ;;
      acc <-
        (if Py.is_not_None views then
           total <- lift (Py.add total_views views) ;;
           ret (total, valid_post_count + 1)
         else ret (total_views, valid_post_count)) ;;
      sleep pacing_delay ;;;
      for_each_post access_token username rest (fst acc) (snd acc)
  end.

(** The opening log line of [get_average_impressions]. *)
Definition calculating (username : string) (days : Z) : text :=
  [Lit "Calculating average impressions for user '"; Fmt (PStr username);
   Lit "' for the last "; Fmt (PInt days); Lit " days"].

(** Its warning when no view count was obtained. *)
Definition no_valid_posts (username : string) : text :=
  [Lit "No valid posts found to calculate average impressions for user '";
   Fmt (PStr username); Lit "'"].

(** [get_average_impressions]: the whole body after the opening log line
    is the [try] block; only [ThreadsApiError] is caught.  The value
    returned is a float or [None]. *)
Definition get_average_impressions (access_token : string) (days : Z)
    (username : string) : M pyval :=
  log INFO (calculating username days) ;;;
  try_except
    (posts <- get_user_posts access_token days username ;;
     items <- lift (Py.iter posts) ;;
     acc <- for_each_post access_token username items (PInt 0) 0 ;;
     let total_views := fst acc in
     let valid_post_count := snd acc in
     if 0 <? valid_post_count then
       average_views <- lift (Py.truediv total_views (PInt valid_post_count)) ;;
       log INFO [Lit "Average impressions for user '"; Fmt (PStr username);
                 Lit "': "; Fmt2f average_views; Lit " (based on ";
                 Fmt (PInt valid_post_count); Lit " posts)"] ;;;
       ret average_views
     else
       log WARNING (no_valid_posts username) ;;;
       ret PNone)
    is_ThreadsApiError
    (fun _ =>
       log ERROR [Lit "Failed to calculate average impressions for user '";
                  Fmt (PStr username); Lit "'"] ;;;
       ret PNone).

End Program.

(** The state at the start of a run: no request made, nothing traced. *)
Definition init : state := mkState 0 [].

(** ** Scripted worlds, for running the model on concrete inputs *)

(** A response with status 200 and the JSON body [v]. *)
Definition ok (v : pyval) : http_outcome :=
  Received (mkResponse 200 "" (Some v) "").

(** A response with the given status, of which [reason] is the text of the
    [HTTPError], and the given body, if it is JSON. *)
Definition failed (status : Z) (reason : string) (b : option pyval)
    : http_outcome :=
  Received (mkResponse status reason b
              "Expecting value: line 1 column 1 (char 0)").

(** The [n]-th request meets the [n]-th entry of the script, whatever it
    asks; requests beyond the script get no response. *)
Definition scripted (script : list http_outcome) : world :=
  mkWorld (fun n _ _ => nth n script (NoResponse "Connection refused"))
          (fun _ => Some "2024-05-01") "2024-05-08" true.

Definition post_record (id : string) : pyval :=
  PDict [("id", PStr id); ("media_type", PStr "TEXT_POST")].

Definition posts_body (posts : list pyval) : pyval := PDict [("data", PList posts)].

Definition views_body (v : pyval) : pyval :=
  PDict [("data", PList [PDict [("name", PStr "views");
                                ("values", PList [PDict [("value", v)]])]])].

(** ** What the claims speak of *)

Section Observations.

Variable w : world.

(** The state in which [get_average_impressions] calls [get_user_posts]:
    the opening log line has been written. *)
Definition entered (username : string) (days : Z) (s : state) : state :=
  snd (log INFO (calculating username days) s).

(** The view lookups of a run, in the words of the specification: for each
    post in turn the View Fetcher is called with the post's identifier and
    the pacing delay follows the call; the outcomes are kept in order. *)
Fixpoint view_lookups (access_token username : string) (posts : list pyval)
    : M (list pyval) :=
  match posts with
  | [] => ret []
  | post :: rest =>
      media_id <- lift (Py.getitem post (Py.KStr "id")) ;;
      views <- get_post_views w media_id access_token username ;;
      sleep pacing_delay ;;;
      outcomes <- view_lookups access_token username rest ;;
      ret (views :: outcomes)
  end.

End Observations.

(** A lookup outcome of the View Fetcher's contract: absent, or an integer. *)
Definition optional_int (v : pyval) : Prop := v = PNone \/ exists z, v = PInt z.

(** The view counts that were obtained. *)
Fixpoint obtained (outcomes : list pyval) : list Z :=
  match outcomes with
  | [] => []
  | PInt z :: rest => z :: obtained rest
  | _ :: rest => obtained rest
  end.

Definition sum_views (views : list Z) : Z := fold_right Z.add 0 views.

Definition count_views (views : list Z) : Z := Z.of_nat (List.length views).

(** The durations of the sleeps of a trace, and the number of its requests. *)
Fixpoint sleeps (evs : list event) : list spec_float :=
  match evs with
  | [] => []
  | Sleep d :: rest => d :: sleeps rest
  | _ :: rest => sleeps rest
  end.

Fixpoint requests (evs : list event) : nat :=
  match evs with
  | [] => O
  | HttpGet _ _ :: rest => S (requests rest)
  | _ :: rest => requests rest
  end.

(** [paced n evs]: the events are those of [n] lookups, each lookup making
    one request, sleeping not at all, and directly followed by one sleep of
    the pacing delay. *)
Inductive paced : nat -> list event -> Prop :=
| paced_done : paced O []
| paced_lookup (n : nat) (lookup rest : list event) :
    requests lookup = 1%nat ->
    sleeps lookup = [] ->
    paced n rest ->
    paced (S n) (lookup ++ Sleep pacing_delay :: rest).

Definition is_log (ev : event) : bool :=
  match ev with
  | Log _ _ => true
  | _ => false
  end.

(** A trace with its log records taken out. *)
Definition without_logs (evs : list event) : list event :=
  filter (fun ev => negb (is_log ev)) evs.

(** Two states that differ in log records only. *)
Definition same_but_logs (s s' : state) : Prop :=
  calls s = calls s' /\ without_logs (trace s) = without_logs (trace s').

(** Two computations that, from states differing in log records only, end
    the same way in states differing in log records only. *)
Definition alike {A : Type} (c c' : M A) : Prop :=
  forall s s', same_but_logs s s' ->
    fst (c s) = fst (c' s') /\ same_but_logs (snd (c s)) (snd (c' s')).

(** The exception is one the Post Fetcher and the View Fetcher absorb. *)
Definition api_failure (A : Type) (o : outcome A) : Prop :=
  exists m, o = Raise (ThreadsApiError m).

Arguments api_failure {A} o.

(** The state after [make_api_request] has sent its request from [s], and
    the state after it has, in addition, written one log record. *)
Definition request_sent (url : text) (params : query) (s : state) : state :=
  mkState (S (calls s)) (trace s ++ [HttpGet url params]).

Definition request_logged (url : text) (params : query) (s : state)
    (ev : event) : state :=
  mkState (S (calls s)) (trace s ++ [HttpGet url params; ev]).

(** The state after the closing log line of a run that found an average,
    and after the warning of one that found none. *)
Definition averaged (username : string) (s : state) (average : pyval) (n : Z)
    : state :=
  snd (log INFO [Lit "Average impressions for user '"; Fmt (PStr username);
                 Lit "': "; Fmt2f average; Lit " (based on ";
                 Fmt (PInt n); Lit " posts)"] s).

Definition warned (username : string) (s : state) : state :=
  snd (log WARNING (no_valid_posts username) s).

(** Every exception [c] raises satisfies [P]. *)
Definition raises_only {A : Type} (P : exn -> Prop) (c : M A) : Prop :=
  forall s e, fst (c s) = Raise e -> P e.

(** The exceptions of a failed subscript, and those of arithmetic. *)
Definition lookup_error (e : exn) : Prop :=
  e = KeyError \/ e = IndexError \/ e = TypeError.

Definition arithmetic_error (e : exn) : Prop :=
  e = TypeError \/ e = OverflowError \/ e = ZeroDivisionError.

(** What [make_api_request] can raise for [url]: its own error, or one of
    the three that pass through it. *)
Definition request_error (w : world) (url : text) (e : exn) : Prop :=
  e = api_request_failed url \/ e = UnboundLocalError \/ e = AttributeError \/
  (json_error_is_request_exception w = false /\ exists m, e = JSONDecodeError m).

(** [c] appends to the trace, and what it appends satisfies [P]. *)
Definition adds {A : Type} (P : list event -> Prop) (c : M A) : Prop :=
  forall s, exists evs, trace (snd (c s)) = trace s ++ evs /\ P evs.

(** Events without a request or a sleep; events with one request and no
    sleep. *)
Definition quiet (evs : list event) : Prop :=
  requests evs = O /\ sleeps evs = [].

Definition one_request (evs : list event) : Prop :=
  requests evs = 1%nat /\ sleeps evs = [].

(** The float [200.0]. *)
Definition float_200 : spec_float := S754_finite false 7036874417766400 (-45).

(** Worlds of the scenarios. *)

Definition three_posts : pyval :=
  posts_body [post_record "17901"; post_record "17902"; post_record "17903"].

(** Views [100, null, 300]: the second lookup is refused. *)
Definition world_100_none_300 : world :=
  scripted [ok three_posts;
            ok (views_body (PInt 100));
            failed 500 "500 Server Error: Internal Server Error" None;
            ok (views_body (PInt 300))].

Definition world_no_posts : world := scripted [ok (posts_body [])].

(** Two posts, both lookups failing. *)
Definition world_all_failed : world :=
  scripted [ok (posts_body [post_record "17901"; post_record "17902"]);
            failed 404 "404 Client Error: Not Found" None;
            ok (PDict [("data", PList [])])].

(** No network: the request gets no response. *)
Definition world_offline : world := scripted [].

Definition invalid_token : pyval :=
  PDict [("error", PDict [("message", PStr "Invalid token");
                          ("code", PInt 190);
                          ("error_subcode", PInt 463)])].

Definition world_invalid_token : world :=
  scripted [failed 400 "400 Client Error: Bad Request" (Some invalid_token)].

(** One post, whose insights response has a number where the list of
    metrics should be. *)
Definition world_wrong_type : world :=
  scripted [ok (posts_body [post_record "17901"]);
            ok (PDict [("data", PInt 5)])].

(** An insights request that is answered with a number where the list of
    metrics should be, and one answered with a negative count. *)
Definition world_views_wrong_type : world :=
  scripted [ok (PDict [("data", PInt 5)])].

Definition world_views_negative : world :=
  scripted [ok (views_body (PInt (-5)))].

(** An insights request that is refused. *)
Definition world_views_refused : world :=
  scripted [failed 404 "404 Client Error: Not Found" None].

(** One post record without an [id]. *)
Definition world_post_without_id : world :=
  scripted [ok (posts_body [PDict [("media_type", PStr "TEXT_POST")]])].

(** One post whose view count comes back negative. *)
Definition world_negative_views : world :=
  scripted [ok (posts_body [post_record "17901"]);
            ok (views_body (PInt (-5)))].

(** ** Answers of the expected shape *)

(** The handler of [make_api_request] can read the body of this response
    when its status is 400: the body is no JSON, or a JSON object whose
    [error] member is absent, false, or an object. *)
Definition readable_error (r : response) : Prop :=
  status_code r = 400 ->
  match body r with
  | None => True
  | Some (PDict members) =>
      match Py.dict_lookup members "error" with
      | None => True
      | Some info => Py.truthy info = false \/ exists d, info = PDict d
      end
  | Some _ => False
  end.

(** An error response the handler can read, or a response whose body is
    JSON. *)
Definition in_order (r : response) : Prop :=
  if error_status r then readable_error r else body r <> None.

(** A post record: an object with an [id] member. *)
Definition has_id (post : pyval) : Prop :=
  exists members id,
    post = PDict members /\ Py.dict_lookup members "id" = Some id.

(** The body of a posts response: an object whose [data] member, if there
    is one, is a list of post records. *)
Definition posts_expected (data : pyval) : Prop :=
  exists members,
    data = PDict members /\
    match Py.dict_lookup members "data" with
    | None => True
    | Some posts => exists items, posts = PList items /\ Forall has_id items
    end.

(** The body of an insights response: the path to the view count meets no
    value of the wrong type, and what it ends in is an integer or null. *)
Definition views_expected (data : pyval) : Prop :=
  match views_path data with
  | Ret views => optional_int views
  | Raise e => e <> TypeError
  end.

(** A world in which every request is answered, in order, and the bodies of
    the answers without error status have the expected shape. *)
Definition well_formed (w : world) : Prop :=
  (forall n url params,
     exists r, http w n url params = Received r /\ in_order r) /\
  (forall n params r data,
     http w n posts_url params = Received r ->
     error_status r = false -> body r = Some data -> posts_expected data) /\
  (forall n media_id params r data,
     http w n (insights_url media_id) params = Received r ->
     error_status r = false -> body r = Some data -> views_expected data).

(** A world that answers every request for the posts with three posts and
    every request for insights with 100 views. *)
Definition world_steady : world :=
  mkWorld (fun _ url _ =>
             match url with
             | [Lit _] => ok three_posts
             | _ => ok (views_body (PInt 100))
             end)
          (fun _ => Some "2024-05-01") "2024-05-08" true.

(** ** The entry point *)

(** The constants of the [__main__] block. *)
Definition main_access_token : string :=
  "THQWJYTWRGUE80Y1gyZAFkyTUgzS1NIaXNTU0QyZA29rd2JZAM3NWQlp1TmxyMGUtaGlvS1VMTWZAjUFJTbEg2cS1zb0cxTW9xVnF4X0RsMHJNRHVqZAzhGb20xTnJRdldNcm5VQ2czdkNVMHZA2R1FabXRWMFRIWnBmTUZALVFNVcWUzRzFsMmNYNnB3".

Definition main_username : string := "konomi_bura".

Definition main_days : Z := 7.

(** Its two closing log lines. *)
Definition average_line (username : string) (days : Z) (average : pyval) : text :=
  [Lit "Average Impressions for user '"; Fmt (PStr username);
   Lit "' over the last "; Fmt (PInt days); Lit " days: "; Fmt2f average].

Definition failed_to_retrieve (username : string) : text :=
  [Lit "Failed to retrieve average impressions for user '";
   Fmt (PStr username); Lit "'"].

(** The [__main__] block: nothing is caught. *)
Definition main (w : world) : M unit :=
  let access_token := main_access_token in
  let username := main_username in
  let days := main_days in
  average_impressions <- get_average_impressions w access_token days username ;;
  if Py.is_not_None average_impressions then
    log INFO (average_line username days average_impressions)
  else
    log ERROR (failed_to_retrieve username).

(** ** What the further properties speak of *)

(** The log lines of the two fetchers, as the functions write them. *)
Definition fetching_posts (username : string) (days : Z) : text :=
  [Lit "Fetching posts for user '"; Fmt (PStr username);
   Lit "' for the last "; Fmt (PInt days); Lit " days"].

Definition retrieved_posts (n : Z) (username : string) : text :=
  [Lit "Retrieved "; Fmt (PInt n); Lit " posts for user '";
   Fmt (PStr username); Lit "'"].

Definition fetching_views (media_id : pyval) (username : string) : text :=
  [Lit "Fetching views for post "; Fmt media_id; Lit " (User: '";
   Fmt (PStr username); Lit "')"].

Definition has_views (media_id views : pyval) (username : string) : text :=
  [Lit "Post "; Fmt media_id; Lit " has "; Fmt views;
   Lit " views (User: '"; Fmt (PStr username); Lit "')"].

Definition failed_to_fetch_views (media_id : pyval) (username : string) : text :=
  [Lit "Failed to fetch views for post "; Fmt media_id; Lit " (User: '";
   Fmt (PStr username); Lit "')"].

(** The closing log line of [get_average_impressions] when it has an
    average. *)
Definition average_found (username : string) (average : pyval) (n : Z) : text :=
  [Lit "Average impressions for user '"; Fmt (PStr username);
   Lit "': "; Fmt2f average; Lit " (based on "; Fmt (PInt n); Lit " posts)"].

(** [total + v1 + ... + vn], added from the left as the loop does, ending
    at the first addition that raises. *)
Fixpoint add_all (total : pyval) (views : list pyval) : outcome pyval :=
  match views with
  | [] => Ret total
  | v :: rest => Py.pure_bind (Py.add total v) (fun t => add_all t rest)
  end.

(** The lookup outcomes that are not [None]. *)
Definition present (outcomes : list pyval) : list pyval :=
  filter Py.is_not_None outcomes.

(** Every request among the events carries the token as its
    [access_token] parameter. *)
Definition carries_token (access_token : string) (evs : list event) : Prop :=
  Forall (fun ev =>
            match ev with
            | HttpGet _ params =>
                Py.dict_lookup params "access_token" = Some (PStr access_token)
            | _ => True
            end) evs.

(** The requests and sleeps of the lookups of the posts with these
    identifiers, in order. *)
Definition lookup_events (access_token : string) (ids : list pyval)
    : list event :=
  flat_map (fun media_id =>
              [HttpGet (insights_url media_id) (views_params access_token);
               Sleep pacing_delay]) ids.

(** [ids] are the [id] members of the posts, in order. *)
Definition ids_of (posts ids : list pyval) : Prop :=
  Forall2 (fun post media_id => Py.getitem post (Py.KStr "id") = Ret media_id)
    posts ids.

(** Events that are log records only. *)
Definition silent (evs : list event) : Prop := without_logs evs = [].

(** A scripted world in which [requests] is older than 2.27. *)
Definition scripted_old (script : list http_outcome) : world :=
  mkWorld (fun n _ _ => nth n script (NoResponse "Connection refused"))
          (fun _ => Some "2024-05-01") "2024-05-08" false.

(** A world whose clock cannot go back the days asked for. *)
Definition world_before_year_one : world :=
  mkWorld (fun _ _ _ => ok (posts_body [])) (fun _ => None) "2024-05-08" true.

(** * Properties *)

(** ** Runs that differ in log records only *)

Lemma without_logs_app (a b : list event) :
  without_logs (a ++ b) = without_logs a ++ without_logs b.
Proof. unfold without_logs. apply filter_app. Qed.

Lemma same_but_logs_refl (s : state) : same_but_logs s s.
Proof. split; reflexivity. Qed.

Lemma same_but_logs_entered (username : string) (days : Z) (s : state) :
  same_but_logs s (entered username days s).
Proof.
  split; simpl; [reflexivity|].
  rewrite without_logs_app. simpl. now rewrite app_nil_r.
Qed.

Lemma alike_ret {A : Type} (a : A) : alike (ret a) (ret a).
Proof. intros s s' H. split; [reflexivity | exact H]. Qed.

Lemma alike_raise {A : Type} (e : exn) : alike (@raise A e) (raise e).
Proof. intros s s' H. split; [reflexivity | exact H]. Qed.

Lemma alike_lift {A : Type} (x : outcome A) : alike (lift x) (lift x).
Proof. intros s s' H. split; [reflexivity | exact H]. Qed.

Lemma alike_local {A : Type} (x : option A) : alike (local x) (local x).
Proof. destruct x; [apply alike_ret | apply alike_raise]. Qed.

Lemma alike_bind {A B : Type} (c c' : M A) (k k' : A -> M B) :
  alike c c' -> (forall a, alike (k a) (k' a)) -> alike (bind c k) (bind c' k').
Proof.
  intros Hc Hk s s' H. unfold bind.
  destruct (Hc s s' H) as [Ho Hs].
  destruct (c s) as [[a|e] s1], (c' s') as [[a'|e'] s1']; simpl in *;
    try discriminate.
  - injection Ho as <-. now apply Hk.
  - injection Ho as <-. now split.
Qed.

Lemma alike_try_except {A : Type} (c c' : M A) (classes : exn -> bool)
    (h h' : exn -> M A) :
  alike c c' -> (forall e, alike (h e) (h' e)) ->
  alike (try_except c classes h) (try_except c' classes h').
Proof.
  intros Hc Hh s s' H. unfold try_except.
  destruct (Hc s s' H) as [Ho Hs].
  destruct (c s) as [[a|e] s1], (c' s') as [[a'|e'] s1']; simpl in *;
    try discriminate.
  - now split.
  - injection Ho as <-. destruct (classes e); [now apply Hh | now split].
Qed.

(** Two log records are alike whatever they say. *)
Lemma alike_log (lvl lvl' : level) (m m' : text) : alike (log lvl m) (log lvl' m').
Proof.
  intros s s' [Hc Ht]. split; [reflexivity|].
  split; simpl; [exact Hc|].
  rewrite !without_logs_app. simpl. now rewrite !app_nil_r.
Qed.

Lemma alike_sleep (d : spec_float) : alike (sleep d) (sleep d).
Proof.
  intros s s' [Hc Ht]. split; [reflexivity|].
  split; simpl; [exact Hc|].
  rewrite !without_logs_app. now rewrite Ht.
Qed.

Create HintDb alike.

#[local] Hint Resolve alike_ret alike_raise alike_lift alike_local alike_log
  alike_sleep : alike.

Ltac alike_step :=
  first
    [ apply alike_bind; [| intro]
    | apply alike_try_except; [| intro]
    | match goal with
      | |- alike (if ?b then _ else _) (if ?b then _ else _) => destruct b
      | |- alike (match ?x with _ => _ end) (match ?x with _ => _ end) =>
          destruct x
      end
    | solve [auto with alike] ].

Section Alike.

Variable w : world.

Lemma alike_requests_get (url : text) (params : query) :
  alike (requests_get w url params) (requests_get w url params).
Proof.
  intros s s' [Hc Ht]. unfold requests_get. rewrite <- Hc.
  assert (Hs : same_but_logs
                 (mkState (S (calls s)) (trace s ++ [HttpGet url params]))
                 (mkState (S (calls s)) (trace s' ++ [HttpGet url params]))).
  { split; simpl; [reflexivity|]. rewrite !without_logs_app. now rewrite Ht. }
  destruct (http w (calls s) url params); now split.
Qed.

Lemma alike_raise_for_status (r : response) :
  alike (raise_for_status r) (raise_for_status r).
Proof. unfold raise_for_status. repeat alike_step. Qed.

Lemma alike_json (r : response) : alike (json r) (json r).
Proof. unfold json. repeat alike_step. Qed.

#[local] Hint Resolve alike_requests_get alike_raise_for_status alike_json : alike.

Lemma alike_request_failed (url : text) (r : option response) (e : exn) :
  alike (request_failed url r e) (request_failed url r e).
Proof. unfold request_failed. repeat alike_step. Qed.

Lemma alike_make_api_request (url : text) (params : query) :
  alike (make_api_request w url params) (make_api_request w url params).
Proof.
  intros s s' H. unfold make_api_request.
  destruct (alike_requests_get url params s s' H) as [Ho Hs].
  destruct (requests_get w url params s) as [[r|e] s1],
           (requests_get w url params s') as [[r'|e'] s1']; simpl in *;
    try discriminate; injection Ho as <-.
  - apply alike_try_except; [| intro; apply alike_request_failed | exact Hs].
    repeat alike_step.
  - destruct (is_RequestException _ e); [| now split].
    now apply alike_request_failed.
Qed.

#[local] Hint Resolve alike_make_api_request : alike.

(** The username reaches nothing but log records: two calls that differ in
    it are alike. *)
Lemma alike_get_user_posts (access_token : string) (days : Z) (u u' : string) :
  alike (get_user_posts w access_token days u)
        (get_user_posts w access_token days u').
Proof. unfold get_user_posts. repeat alike_step. Qed.

Lemma alike_get_post_views (media_id : pyval) (access_token u u' : string) :
  alike (get_post_views w media_id access_token u)
        (get_post_views w media_id access_token u').
Proof. unfold get_post_views. repeat alike_step. Qed.

#[local] Hint Resolve alike_get_user_posts alike_get_post_views : alike.

Lemma alike_for_each_post (access_token u u' : string) (posts : list pyval) :
  forall total n,
    alike (for_each_post w access_token u posts total n)
          (for_each_post w access_token u' posts total n).
Proof.
  induction posts as [|post rest IH]; intros total n; simpl.
  - apply alike_ret.
  - repeat alike_step; apply IH.
Qed.

Lemma alike_view_lookups (access_token u u' : string) (posts : list pyval) :
  alike (view_lookups w access_token u posts)
        (view_lookups w access_token u' posts).
Proof.
  induction posts as [|post rest IH]; simpl.
  - apply alike_ret.
  - repeat alike_step; apply IH.
Qed.

#[local] Hint Resolve alike_for_each_post alike_view_lookups : alike.

Lemma alike_get_average_impressions (access_token : string) (days : Z)
    (u u' : string) :
  alike (get_average_impressions w access_token days u)
        (get_average_impressions w access_token days u').
Proof. unfold get_average_impressions. repeat alike_step. Qed.

End Alike.

(** ** Sequencing *)

Lemma bind_returned {A B : Type} (c : M A) (k : A -> M B) (s s1 : state) (a : A) :
  c s = (Ret a, s1) -> bind c k s = k a s1.
Proof. intros H. unfold bind. now rewrite H. Qed.

Lemma bind_raised {A B : Type} (c : M A) (k : A -> M B) (s s1 : state) (e : exn) :
  c s = (Raise e, s1) -> bind c k s = (Raise e, s1).
Proof. intros H. unfold bind. now rewrite H. Qed.

Lemma bind_returns {A B : Type} (c : M A) (k : A -> M B) (s s' : state) (b : B) :
  bind c k s = (Ret b, s') ->
  exists a s1, c s = (Ret a, s1) /\ k a s1 = (Ret b, s').
Proof.
  unfold bind. destruct (c s) as [[a|e] s1]; intros H; [|discriminate].
  now exists a, s1.
Qed.

Lemma lift_returns {A : Type} (x : outcome A) (s s' : state) (a : A) :
  lift x s = (Ret a, s') -> x = Ret a /\ s' = s.
Proof. unfold lift. intros H. injection H as -> ->. now split. Qed.

(** ** Which exceptions a computation can raise *)

Lemma raises_only_ret {A : Type} (P : exn -> Prop) (a : A) : raises_only P (ret a).
Proof. intros s e H. discriminate. Qed.

Lemma raises_only_raise {A : Type} (P : exn -> Prop) (e : exn) :
  P e -> raises_only P (@raise A e).
Proof. intros HP s e' H. simpl in H. now injection H as <-. Qed.

Lemma raises_only_lift {A : Type} (P : exn -> Prop) (x : outcome A) :
  (forall e, x = Raise e -> P e) -> raises_only P (lift x).
Proof. intros HP s e H. now apply HP. Qed.

Lemma raises_only_emit (P : exn -> Prop) (ev : event) : raises_only P (emit ev).
Proof. intros s e H. discriminate. Qed.

Lemma raises_only_bind {A B : Type} (P : exn -> Prop) (c : M A) (k : A -> M B) :
  raises_only P c -> (forall a, raises_only P (k a)) -> raises_only P (bind c k).
Proof.
  intros Hc Hk s e. unfold bind. specialize (Hc s).
  destruct (c s) as [[a|e0] s1]; simpl in *.
  - apply Hk.
  - intros H. injection H as <-. now apply Hc.
Qed.

(** An exception leaves [try ... except] when it is not of the classes
    caught, or when the handler raises it. *)
Lemma raises_only_try_except {A : Type} (P Q : exn -> Prop) (c : M A)
    (classes : exn -> bool) (h : exn -> M A) :
  raises_only Q c ->
  (forall e, Q e -> classes e = false -> P e) ->
  (forall e, raises_only P (h e)) ->
  raises_only P (try_except c classes h).
Proof.
  intros Hc HQ Hh s e. unfold try_except. specialize (Hc s).
  destruct (c s) as [[a|e0] s1]; simpl in *; [discriminate|].
  destruct (classes e0) eqn:Hcl.
  - apply Hh.
  - intros H. injection H as <-. apply HQ; [now apply Hc | exact Hcl].
Qed.

Lemma raises_only_weaken {A : Type} (P Q : exn -> Prop) (c : M A) :
  raises_only P c -> (forall e, P e -> Q e) -> raises_only Q c.
Proof. intros Hc HPQ s e H. apply HPQ. now apply (Hc s). Qed.

(** The pure operations raise the built-in exceptions only. *)

Lemma getitem_raises (obj : pyval) (key : Py.subscript) (e : exn) :
  Py.getitem obj key = Raise e -> lookup_error e.
Proof.
  unfold lookup_error, Py.getitem. intros H.
  repeat match type of H with
         | context [match ?x with _ => _ end] => destruct x
         end;
    try discriminate; injection H as <-; auto.
Qed.

Lemma views_path_raises (data : pyval) (e : exn) :
  views_path data = Raise e -> lookup_error e.
Proof.
  unfold views_path, Py.pure_bind. intros H.
  repeat match type of H with
         | context [match Py.getitem ?o ?k with _ => _ end] =>
             let E := fresh "E" in
             destruct (Py.getitem o k) eqn:E;
             [| injection H as <-; exact (getitem_raises _ _ _ E)]
         end.
  exact (getitem_raises _ _ _ H).
Qed.

Lemma get_raises (obj : pyval) (key : string) (default : pyval) (e : exn) :
  Py.get obj key default = Raise e -> e = AttributeError.
Proof.
  unfold Py.get. intros H.
  destruct obj; try (now injection H as <-).
  destruct (Py.dict_lookup items key); discriminate.
Qed.

Lemma len_raises (obj : pyval) (e : exn) : Py.len obj = Raise e -> e = TypeError.
Proof. destruct obj; simpl; intros H; try discriminate; now injection H as <-. Qed.

Lemma iter_raises (obj : pyval) (e : exn) : Py.iter obj = Raise e -> e = TypeError.
Proof. destruct obj; simpl; intros H; try discriminate; now injection H as <-. Qed.

Lemma finite_or_overflow_raises (f : spec_float) (e : exn) :
  Py.finite_or_overflow f = Raise e -> e = OverflowError.
Proof. destruct f; simpl; intros H; try discriminate; now injection H as <-. Qed.

Lemma as_float_raises (x : pyval) (fx : outcome spec_float) (e : exn) :
  Py.as_float x = Some fx -> fx = Raise e -> e = OverflowError.
Proof.
  unfold Py.as_float, Py.float_of_int. intros H ->.
  destruct x; simpl in H; try discriminate; injection H as H;
    try discriminate; now apply finite_or_overflow_raises in H.
Qed.

Lemma add_raises (x y : pyval) (e : exn) :
  Py.add x y = Raise e -> arithmetic_error e.
Proof.
  unfold Py.add, arithmetic_error, Py.pure_bind. intros H.
  assert (G : forall a b : outcome spec_float,
             Py.as_float x = Some a -> Py.as_float y = Some b ->
             match a with
             | Ret f => match b with
                        | Ret g => Ret (PFloat (SFadd Py.prec Py.emax f g))
                        | Raise e0 => Raise e0
                        end
             | Raise e0 => Raise e0
             end = Raise e -> e = OverflowError).
  { intros a b Ha Hb. destruct a as [f|e1].
    - destruct b as [g|e2]; [discriminate|]. intros E. injection E as <-.
      now apply (as_float_raises y (Raise e2)).
    - intros E. injection E as <-. now apply (as_float_raises x (Raise e1)). }
  destruct (Py.as_int x), (Py.as_int y); try discriminate;
    destruct (Py.as_float x) eqn:Ex, (Py.as_float y) eqn:Ey;
    try (right; left; now apply (G _ _ eq_refl eq_refl));
    destruct x, y; try discriminate; injection H as <-; auto.
Qed.

Lemma truediv_raises (x y : pyval) (e : exn) :
  Py.truediv x y = Raise e -> arithmetic_error e.
Proof.
  unfold Py.truediv, arithmetic_error, Py.pure_bind. intros H.
  assert (I : forall a b,
             match Py.int_true_div a b with
             | Ret q => Ret (PFloat q)
             | Raise e0 => Raise e0
             end = Raise e -> e = OverflowError \/ e = ZeroDivisionError).
  { intros a b. unfold Py.int_true_div. destruct (b =? 0).
    - intros E. injection E as <-. now right.
    - destruct (Py.finite_or_overflow _) eqn:E; [discriminate|].
      intros E'. injection E' as <-. left.
      now apply finite_or_overflow_raises in E. }
  assert (G : forall a b : outcome spec_float,
             Py.as_float x = Some a -> Py.as_float y = Some b ->
             match a with
             | Ret f =>
                 match b with
                 | Ret g =>
                     match Py.float_true_div f g with
                     | Ret q => Ret (PFloat q)
                     | Raise e0 => Raise e0
                     end
                 | Raise e0 => Raise e0
                 end
             | Raise e0 => Raise e0
             end = Raise e -> e = OverflowError \/ e = ZeroDivisionError).
  { intros a b Ha Hb. destruct a as [f|e1].
    - destruct b as [g|e2].
      + unfold Py.float_true_div. destruct g; try discriminate.
        intros E. injection E as <-. now right.
      + intros E. injection E as <-. left.
        now apply (as_float_raises y (Raise e2)).
    - intros E. injection E as <-. left.
      now apply (as_float_raises x (Raise e1)). }
  destruct (Py.as_int x) as [a|], (Py.as_int y) as [b|];
    try (right; now apply (I a b));
    destruct (Py.as_float x) eqn:Ex, (Py.as_float y) eqn:Ey;
    try (right; now apply (G _ _ eq_refl eq_refl));
    injection H as <-; auto.
Qed.

(** ** What a computation appends to the trace *)

Lemma requests_app (a b : list event) :
  requests (a ++ b) = (requests a + requests b)%nat.
Proof.
  induction a as [|ev a IH]; simpl; [reflexivity|].
  destruct ev; simpl; now rewrite IH.
Qed.

Lemma sleeps_app (a b : list event) : sleeps (a ++ b) = sleeps a ++ sleeps b.
Proof.
  induction a as [|ev a IH]; simpl; [reflexivity|].
  destruct ev; simpl; now rewrite IH.
Qed.

Lemma quiet_nil : quiet [].
Proof. now split. Qed.

Lemma quiet_log (lvl : level) (m : text) : quiet [Log lvl m].
Proof. now split. Qed.

Lemma quiet_app (a b : list event) : quiet a -> quiet b -> quiet (a ++ b).
Proof.
  intros [Ra Sa] [Rb Sb]. split.
  - rewrite requests_app. now rewrite Ra, Rb.
  - rewrite sleeps_app. now rewrite Sa, Sb.
Qed.

Lemma one_request_quiet (a b : list event) :
  one_request a -> quiet b -> one_request (a ++ b).
Proof.
  intros [Ra Sa] [Rb Sb]. split.
  - rewrite requests_app. now rewrite Ra, Rb.
  - rewrite sleeps_app. now rewrite Sa, Sb.
Qed.

Lemma quiet_one_request (a b : list event) :
  quiet a -> one_request b -> one_request (a ++ b).
Proof.
  intros [Ra Sa] [Rb Sb]. split.
  - rewrite requests_app. now rewrite Ra, Rb.
  - rewrite sleeps_app. now rewrite Sa, Sb.
Qed.

Lemma adds_ret {A : Type} (P : list event -> Prop) (a : A) : P [] -> adds P (ret a).
Proof. intros HP s. exists []. simpl. now rewrite app_nil_r. Qed.

Lemma adds_raise {A : Type} (P : list event -> Prop) (e : exn) :
  P [] -> adds P (@raise A e).
Proof. intros HP s. exists []. simpl. now rewrite app_nil_r. Qed.

Lemma adds_lift {A : Type} (P : list event -> Prop) (x : outcome A) :
  P [] -> adds P (lift x).
Proof. intros HP s. exists []. simpl. now rewrite app_nil_r. Qed.

Lemma adds_local {A : Type} (P : list event -> Prop) (x : option A) :
  P [] -> adds P (local x).
Proof. destruct x; [apply adds_ret | apply adds_raise]. Qed.

Lemma adds_emit (P : list event -> Prop) (ev : event) : P [ev] -> adds P (emit ev).
Proof. intros HP s. now exists [ev]. Qed.

(** Sequencing: [P] then [Q] gives [R], when [R] holds of what [P] allows
    alone (the first part raised) and of what [P] and [Q] allow together. *)
Lemma adds_bind {A B : Type} (P Q R : list event -> Prop) (c : M A)
    (k : A -> M B) :
  adds P c -> (forall a, adds Q (k a)) ->
  (forall x, P x -> R x) ->
  (forall x y, P x -> Q y -> R (x ++ y)) ->
  adds R (bind c k).
Proof.
  intros Hc Hk HP HPQ s. unfold bind.
  destruct (Hc s) as (x & Hx & Px).
  destruct (c s) as [[a|e] s1]; simpl in *.
  - destruct (Hk a s1) as (y & Hy & Qy).
    exists (x ++ y). split; [| now apply HPQ].
    now rewrite Hy, Hx, app_assoc.
  - exists x. split; [exact Hx | now apply HP].
Qed.

Lemma adds_try_except {A : Type} (P Q R : list event -> Prop) (c : M A)
    (classes : exn -> bool) (h : exn -> M A) :
  adds P c -> (forall e, adds Q (h e)) ->
  (forall x, P x -> R x) ->
  (forall x y, P x -> Q y -> R (x ++ y)) ->
  adds R (try_except c classes h).
Proof.
  intros Hc Hh HP HPQ s. unfold try_except.
  destruct (Hc s) as (x & Hx & Px).
  destruct (c s) as [[a|e] s1]; simpl in *.
  - exists x. split; [exact Hx | now apply HP].
  - destruct (classes e).
    + destruct (Hh e s1) as (y & Hy & Qy).
      exists (x ++ y). split; [| now apply HPQ].
      now rewrite Hy, Hx, app_assoc.
    + exists x. split; [exact Hx | now apply HP].
Qed.

(** A log record or a sleep, which never raises, and what follows it. *)
Lemma adds_after_emit {B : Type} (P R : list event -> Prop) (ev : event)
    (k : unit -> M B) :
  adds P (k tt) -> (forall y, P y -> R (ev :: y)) -> adds R (bind (emit ev) k).
Proof.
  intros Hk HR s. unfold bind, emit.
  destruct (Hk (mkState (calls s) (trace s ++ [ev]))) as (y & Hy & Py).
  exists (ev :: y). split; [| now apply HR].
  rewrite Hy. simpl. now rewrite <- app_assoc.
Qed.

Lemma quiet_bind {A B : Type} (c : M A) (k : A -> M B) :
  adds quiet c -> (forall a, adds quiet (k a)) -> adds quiet (bind c k).
Proof.
  intros Hc Hk. apply (adds_bind quiet quiet quiet); auto using quiet_app.
Qed.

Lemma quiet_try_except {A : Type} (c : M A) (classes : exn -> bool)
    (h : exn -> M A) :
  adds quiet c -> (forall e, adds quiet (h e)) ->
  adds quiet (try_except c classes h).
Proof.
  intros Hc Hh. apply (adds_try_except quiet quiet quiet); auto using quiet_app.
Qed.

Create HintDb quiet.

#[local] Hint Resolve quiet_nil quiet_log : quiet.

Ltac quiet_step :=
  first
    [ apply quiet_bind; [| intro]
    | apply quiet_try_except; [| intro]
    | apply adds_ret; solve [auto with quiet]
    | apply adds_raise; solve [auto with quiet]
    | apply adds_lift; solve [auto with quiet]
    | apply adds_local; solve [auto with quiet]
    | apply adds_emit; solve [auto with quiet]
    | match goal with
      | |- adds _ (if ?b then _ else _) => destruct b
      | |- adds _ (match ?x with _ => _ end) => destruct x
      end ].

Section Traces.

Variable w : world.

Lemma quiet_request_failed (url : text) (r : option response) (e : exn) :
  adds quiet (request_failed url r e).
Proof.
  unfold request_failed, raise_for_status, json, log. repeat quiet_step.
Qed.

(** [make_api_request] sends one request and, that apart, only logs. *)
Lemma make_api_request_trace (url : text) (params : query) (s : state) :
  exists evs,
    trace (snd (make_api_request w url params s))
    = trace s ++ HttpGet url params :: evs /\ quiet evs.
Proof.
  unfold make_api_request, requests_get.
  set (s1 := mkState (S (calls s)) (trace s ++ [HttpGet url params])).
  assert (H : forall c : M pyval, adds quiet c ->
            exists evs, trace (snd (c s1))
                        = trace s ++ HttpGet url params :: evs /\ quiet evs).
  { intros c Hc. destruct (Hc s1) as (evs & Ht & Hq). exists evs.
    split; [| exact Hq]. rewrite Ht. unfold s1. simpl.
    now rewrite <- app_assoc. }
  destruct (http w (calls s) url params) as [r|msg].
  - apply H. apply quiet_try_except.
    + unfold raise_for_status, json. repeat quiet_step.
    + intro. apply quiet_request_failed.
  - destruct (is_RequestException _ _).
    + apply H. apply quiet_request_failed.
    + apply H. apply adds_raise. apply quiet_nil.
Qed.

Lemma one_request_make_api_request (url : text) (params : query) :
  adds one_request (make_api_request w url params).
Proof.
  intros s. destruct (make_api_request_trace url params s) as (evs & Ht & Hq).
  exists (HttpGet url params :: evs). split; [exact Ht|].
  apply (quiet_one_request [] _ quiet_nil).
  apply (one_request_quiet [HttpGet url params] evs); [now split | exact Hq].
Qed.

(** So does [get_post_views]: one request, no sleep. *)
Lemma one_request_get_post_views (media_id : pyval) (access_token username : string) :
  adds one_request (get_post_views w media_id access_token username).
Proof.
  unfold get_post_views, log.
  apply (adds_after_emit one_request one_request).
  - apply (adds_try_except one_request quiet one_request);
      auto using one_request_quiet.
    + apply (adds_bind one_request quiet one_request);
        auto using one_request_quiet, one_request_make_api_request.
      intros data. repeat quiet_step.
    + intros e. repeat quiet_step.
  - intros y Hy. apply (quiet_one_request [_] y); [apply quiet_log | exact Hy].
Qed.

(** [get_user_posts] does not sleep. *)
Lemma get_user_posts_no_sleep (access_token : string) (days : Z)
    (username : string) (s : state) :
  sleeps (trace (snd (get_user_posts w access_token days username s)))
  = sleeps (trace s).
Proof.
  assert (H : adds (fun evs => sleeps evs = [])
                (get_user_posts w access_token days username)).
  { unfold get_user_posts, log.
    apply (adds_after_emit (fun evs => sleeps evs = []) _); [| now intros y].
    apply (adds_bind quiet (fun evs => sleeps evs = []) _).
    - repeat quiet_step.
    - intros since.
      apply (adds_try_except one_request quiet _).
      + apply (adds_bind one_request quiet one_request);
          auto using one_request_quiet, one_request_make_api_request.
        intros data. repeat quiet_step.
      + intros e. repeat quiet_step.
      + now intros x [_ Hx].
      + intros x y [_ Hx] [_ Hy]. rewrite sleeps_app. now rewrite Hx, Hy.
    - now intros x [_ Hx].
    - intros x y [_ Hx] Hy. rewrite sleeps_app. now rewrite Hx, Hy. }
  destruct (H s) as (evs & Ht & He). rewrite Ht, sleeps_app, He.
  apply app_nil_r.
Qed.

End Traces.

(** ** The API client, case by case *)

Section Client.

Variable w : world.
Variables (url : text) (params : query) (s : state).

(** No response: the handler reads [response], which was never assigned. *)
Lemma make_api_request_no_response (msg : string) :
  http w (calls s) url params = NoResponse msg ->
  make_api_request w url params s
  = (Raise UnboundLocalError, request_sent url params s).
Proof.
  intros H. unfold make_api_request, requests_get. rewrite H. reflexivity.
Qed.

Lemma make_api_request_success (r : response) (v : pyval) :
  http w (calls s) url params = Received r ->
  error_status r = false ->
  body r = Some v ->
  make_api_request w url params s = (Ret v, request_sent url params s).
Proof.
  intros H He Hb.
  unfold make_api_request, requests_get, try_except, bind, raise_for_status, json.
  rewrite H, He, Hb. reflexivity.
Qed.

Lemma error_status_400 (r : response) : status_code r = 400 -> error_status r = true.
Proof. unfold error_status. intros ->. reflexivity. Qed.

(** An error status other than 400: the raw exception text is logged. *)
Lemma make_api_request_http_error (r : response) :
  http w (calls s) url params = Received r ->
  error_status r = true ->
  status_code r <> 400 ->
  make_api_request w url params s
  = (Raise (api_request_failed url),
     request_logged url params s
       (Log ERROR [Lit "API request failed: "; Lit (http_error_text r)])).
Proof.
  intros H He Hs. apply Z.eqb_neq in Hs.
  unfold make_api_request, requests_get, try_except, bind, raise_for_status.
  rewrite H, He. simpl.
  unfold request_failed, bind, local. simpl. rewrite Hs. simpl.
  now rewrite <- app_assoc.
Qed.

(** A body that is not JSON under a status that is no error: with
    [requests] from 2.27 on the decoding error is caught as well. *)
Lemma make_api_request_not_json (r : response) :
  http w (calls s) url params = Received r ->
  error_status r = false ->
  body r = None ->
  json_error_is_request_exception w = true ->
  make_api_request w url params s
  = (Raise (api_request_failed url),
     request_logged url params s
       (Log ERROR [Lit "API request failed: "; Lit (json_error_text r)])).
Proof.
  intros H He Hb Hv.
  assert (Hs : (status_code r =? 400) = false).
  { apply Z.eqb_neq. intros E. apply error_status_400 in E. congruence. }
  unfold make_api_request, requests_get, try_except, bind, raise_for_status, json.
  rewrite H, He, Hb, Hv. simpl.
  unfold request_failed, bind, local. simpl. rewrite Hs. simpl.
  now rewrite <- app_assoc.
Qed.

(** Status 400 with a JSON object whose [error] member is a non-empty
    object: its fields are logged. *)
Lemma make_api_request_structured (r : response) (b : list (string * pyval))
    (info : list (string * pyval)) :
  http w (calls s) url params = Received r ->
  status_code r = 400 ->
  body r = Some (PDict b) ->
  Py.dict_lookup b "error" = Some (PDict info) ->
  info <> [] ->
  make_api_request w url params s
  = (Raise (api_request_failed url),
     request_logged url params s (Log ERROR
               [Lit "API request failed: ";
                Fmt (match Py.dict_lookup info "message" with
                     | Some m => m
                     | None => PStr (http_error_text r)
                     end);
                Lit " (Code: ";
                Fmt (match Py.dict_lookup info "code" with
                     | Some c => c
                     | None => PNone
                     end);
                Lit ", Subcode: ";
                Fmt (match Py.dict_lookup info "error_subcode" with
                     | Some c => c
                     | None => PNone
                     end);
                Lit ")"])).
Proof.
  intros H Hs Hb Hi Hne.
  unfold make_api_request, requests_get, try_except, bind, raise_for_status.
  rewrite H, (error_status_400 r Hs). simpl.
  unfold request_failed, bind, local, try_except, json, lift. simpl.
  rewrite Hs, Hb. simpl. rewrite Hi.
  destruct info as [|item info]; [congruence|]. simpl Py.truthy. cbv iota.
  unfold Py.get.
  destruct (Py.dict_lookup (item :: info) "message"),
           (Py.dict_lookup (item :: info) "code"),
           (Py.dict_lookup (item :: info) "error_subcode"); simpl;
    now rewrite <- app_assoc.
Qed.

(** The handler always ends in a raise. *)
Lemma request_failed_raises (response : option response) (e : exn) (s0 : state) :
  exists e', fst (request_failed url response e s0) = Raise e'.
Proof.
  assert (B : forall (A : Type) (c : M A) (k : A -> M pyval),
             (forall a s1, exists e', fst (k a s1) = Raise e') ->
             forall s1, exists e', fst (bind c k s1) = Raise e').
  { intros A c k Hk s1. unfold bind. destruct (c s1) as [[a|e0] s2].
    - apply Hk.
    - now exists e0. }
  unfold request_failed. apply B. intros r s1. apply B. intros info s2.
  apply B. intros _ s3. now exists (api_request_failed url).
Qed.

(** Whatever it returns is the parsed body of a response whose status was
    no error. *)
Lemma make_api_request_returns (v : pyval) (s' : state) :
  make_api_request w url params s = (Ret v, s') ->
  exists r, http w (calls s) url params = Received r /\
            error_status r = false /\ body r = Some v /\
            s' = request_sent url params s.
Proof.
  assert (N : forall response e s0,
             request_failed url response e s0 <> (Ret v, s')).
  { intros response e s0 H.
    destruct (request_failed_raises response e s0) as [e' He'].
    rewrite H in He'. discriminate. }
  unfold make_api_request, requests_get.
  destruct (http w (calls s) url params) as [r|msg]; simpl.
  - intros H. exists r. split; [reflexivity|].
    unfold try_except, bind, raise_for_status, json in H.
    destruct (error_status r) eqn:He; simpl in H.
    + now apply N in H.
    + destruct (body r) as [v0|]; simpl in H.
      * injection H as <- <-. now repeat split.
      * destruct (json_error_is_request_exception w); [now apply N in H|].
        discriminate.
  - intros H. now apply N in H.
Qed.

Lemma request_failed_raises_only (response : option response) (e : exn) :
  raises_only
    (fun e' => e' = api_request_failed url \/ e' = UnboundLocalError \/
               e' = AttributeError)
    (request_failed url response e).
Proof.
  unfold request_failed.
  apply raises_only_bind.
  { destruct response; [apply raises_only_ret | apply raises_only_raise]; auto. }
  intros r. apply raises_only_bind.
  { destruct (status_code r =? 400); [| apply raises_only_ret].
    apply (raises_only_try_except _
             (fun e' => is_ValueError e' = true \/ e' = AttributeError)).
    - apply raises_only_bind.
      + unfold json. destruct (body r); [apply raises_only_ret|].
        apply raises_only_raise. now left.
      + intros b. apply raises_only_lift. intros e' H. right.
        now apply get_raises in H.
    - intros e' [H|H] Hc; [congruence | auto].
    - intros e'. apply raises_only_ret. }
  intros info. apply raises_only_bind.
  { destruct (Py.truthy info).
    - repeat (apply raises_only_bind; [| intro]);
        try apply raises_only_emit;
        apply raises_only_lift; intros e' H; apply get_raises in H; auto.
    - apply raises_only_emit. }
  intros _. apply raises_only_raise. now left.
Qed.

Lemma make_api_request_raises : raises_only (request_error w url)
                                  (make_api_request w url params).
Proof.
  assert (F : forall response e,
             raises_only (request_error w url) (request_failed url response e)).
  { intros response e.
    apply (raises_only_weaken _ _ _ (request_failed_raises_only response e)).
    unfold request_error. intros e' [H|[H|H]]; auto. }
  intros s0 e. unfold make_api_request, requests_get.
  destruct (http w (calls s0) url params) as [r|msg]; simpl.
  - apply (raises_only_try_except _
             (fun e' => is_RequestException
                          (json_error_is_request_exception w) e' = true \/
                        (json_error_is_request_exception w = false /\
                         exists m, e' = JSONDecodeError m))).
    + apply raises_only_bind.
      * unfold raise_for_status. destruct (error_status r);
          [apply raises_only_raise; now left | apply raises_only_ret].
      * intros _. unfold json. destruct (body r); [apply raises_only_ret|].
        apply raises_only_raise. simpl.
        destruct (json_error_is_request_exception w); [now left | right].
        split; [reflexivity | now eexists].
    + intros e' [H|H] Hc; [congruence|]. unfold request_error. auto.
    + apply F.
  - intros H. injection H as <-. unfold request_error. auto.
Qed.

End Client.

(** ** The two fetchers *)

Section Fetchers.

Variable w : world.

(** The outcome of a request does not depend on what was logged before. *)
Lemma make_api_request_after_log (url : text) (params : query) (s : state)
    (lvl : level) (m : text) :
  fst (make_api_request w url params (snd (log lvl m s)))
  = fst (make_api_request w url params s).
Proof.
  symmetry. apply (alike_make_api_request w url params).
  split; simpl; [reflexivity|].
  rewrite without_logs_app. simpl. now rewrite app_nil_r.
Qed.

(** The outcome of [get_post_views], from the outcome of its request. *)
Lemma get_post_views_outcome (media_id : pyval) (access_token username : string)
    (s : state) :
  fst (get_post_views w media_id access_token username s)
  = match fst (make_api_request w (insights_url media_id)
                 (views_params access_token) s) with
    | Ret data =>
        match views_path data with
        | Ret views => Ret views
        | Raise e => if views_caught e then Ret PNone else Raise e
        end
    | Raise e => if views_caught e then Ret PNone else Raise e
    end.
Proof.
  rewrite <- (make_api_request_after_log _ _ s INFO
                [Lit "Fetching views for post "; Fmt media_id; Lit " (User: '";
                 Fmt (PStr username); Lit "')"]).
  unfold get_post_views, bind at 1, try_except, bind, lift. unfold log at 1.
  unfold emit at 1. cbv beta iota.
  destruct (make_api_request w _ _ _) as [[data|e] s1]; simpl.
  - destruct (views_path data) as [v|e]; simpl; [reflexivity|].
    now destruct (views_caught e).
  - now destruct (views_caught e).
Qed.

(** The outcome of [get_user_posts], from the outcome of its request. *)
Lemma get_user_posts_outcome (access_token : string) (days : Z)
    (username : string) (s : state) :
  fst (get_user_posts w access_token days username s)
  = match date_days_ago w days with
    | None => Raise OverflowError
    | Some since_date =>
        match fst (make_api_request w posts_url
                     (posts_params since_date (date_today w) access_token) s) with
        | Ret data =>
            match Py.get data "data" (PList []) with
            | Ret posts =>
                match Py.len posts with
                | Ret _ => Ret posts
                | Raise e => Raise e
                end
            | Raise e => Raise e
            end
        | Raise e => if is_ThreadsApiError e then Ret (PList []) else Raise e
        end
    end.
Proof.
  unfold get_user_posts, bind at 1. unfold log at 1, emit at 1. cbv beta iota.
  unfold bind at 1.
  destruct (date_days_ago w days) as [since|]; simpl; [| reflexivity].
  rewrite <- (make_api_request_after_log _ _ s INFO
                [Lit "Fetching posts for user '"; Fmt (PStr username);
                 Lit "' for the last "; Fmt (PInt days); Lit " days"]).
  unfold try_except, bind, lift. simpl.
  destruct (make_api_request w _ _ _) as [[data|e] s1]; simpl.
  - destruct (Py.get data "data" (PList [])) as [posts|e] eqn:E; simpl.
    + destruct (Py.len posts) as [n|e] eqn:L; simpl; [reflexivity|].
      now rewrite (len_raises _ _ L).
    + now rewrite (get_raises _ _ _ _ E).
  - now destruct (is_ThreadsApiError e).
Qed.

(** Neither fetcher lets [ThreadsApiError] out. *)
Lemma get_user_posts_absorbs (access_token : string) (days : Z) (username : string) :
  raises_only (fun e => is_ThreadsApiError e = false)
    (get_user_posts w access_token days username).
Proof.
  intros s e. rewrite get_user_posts_outcome.
  destruct (date_days_ago w days); [| intros H; now injection H as <-].
  destruct (fst (make_api_request w _ _ s)) as [data|e0].
  - destruct (Py.get data "data" (PList [])) as [posts|e1] eqn:E.
    + destruct (Py.len posts) eqn:L; [discriminate|].
      intros H. injection H as <-. now rewrite (len_raises _ _ L).
    + intros H. injection H as <-. now rewrite (get_raises _ _ _ _ E).
  - destruct (is_ThreadsApiError e0) eqn:T; [discriminate|].
    intros H. now injection H as <-.
Qed.

Lemma get_post_views_absorbs (media_id : pyval) (access_token username : string) :
  raises_only (fun e => views_caught e = false)
    (get_post_views w media_id access_token username).
Proof.
  intros s e. rewrite get_post_views_outcome.
  destruct (fst (make_api_request w _ _ s)) as [data|e0].
  - destruct (views_path data) as [v|e1]; [discriminate|].
    destruct (views_caught e1) eqn:T; [discriminate|].
    intros H. now injection H as <-.
  - destruct (views_caught e0) eqn:T; [discriminate|].
    intros H. now injection H as <-.
Qed.

Lemma views_caught_ThreadsApiError (e : exn) :
  views_caught e = false -> is_ThreadsApiError e = false.
Proof. now destruct e. Qed.

End Fetchers.

(** ** The loop of the aggregator *)

Section Aggregator.

Variable w : world.
Variables access_token username : string.

Lemma filter_not_None_nil (outcomes : list pyval) :
  filter Py.is_not_None outcomes = [] <-> Forall (eq PNone) outcomes.
Proof.
  induction outcomes as [|v rest IH]; simpl.
  - split; [constructor | reflexivity].
  - destruct v; simpl; split; intros H; try discriminate;
      try (inversion H; discriminate).
    + constructor; [reflexivity | now apply IH].
    + inversion H. now apply IH.
Qed.

(** A loop that ran to its end made the lookups of [view_lookups], ended in
    the same state, and counted the outcomes that are not [None]. *)
Lemma for_each_post_lookups (posts : list pyval) :
  forall total n s total' n' s',
    for_each_post w access_token username posts total n s
    = (Ret (total', n'), s') ->
    exists outcomes,
      view_lookups w access_token username posts s = (Ret outcomes, s') /\
      n' = n + Z.of_nat (List.length (filter Py.is_not_None outcomes)).
Proof.
  induction posts as [|post rest IH]; intros total n s total' n' s' H.
  - simpl in H. injection H as <- <- <-. exists []. split; [reflexivity|].
    simpl. lia.
  - simpl in H.
    apply bind_returns in H as (media_id & s1 & Hid & H).
    apply lift_returns in Hid as [Hid ->].
    apply bind_returns in H as (views & s2 & Hv & H).
    apply bind_returns in H as (acc & s3 & Hacc & H).
    apply bind_returns in H as ([] & s4 & Hsl & H).
    apply IH in H as (outcomes & Hl & Hn).
    assert (E : s3 = s2 /\
                snd acc = n + (if Py.is_not_None views then 1 else 0)).
    { destruct (Py.is_not_None views).
      - apply bind_returns in Hacc as (t & s5 & Ht & Hacc).
        apply lift_returns in Ht as [_ ->]. injection Hacc as <- <-.
        now split.
      - injection Hacc as <- <-. split; [reflexivity | simpl; lia]. }
    destruct E as [-> Hc].
    exists (views :: outcomes). split.
    + simpl. unfold bind at 1, lift. rewrite Hid.
      unfold bind at 1. rewrite Hv.
      unfold bind at 1. rewrite Hsl.
      unfold bind. rewrite Hl. reflexivity.
    + rewrite Hn, Hc. simpl. destruct (Py.is_not_None views); simpl; lia.
Qed.

Lemma optional_int_not_None (v : pyval) :
  optional_int v ->
  (v = PNone /\ Py.is_not_None v = false) \/
  (exists z, v = PInt z /\ Py.is_not_None v = true).
Proof. intros [->|[z ->]]; [left | right; exists z]; now split. Qed.

(** When every outcome is absent or an integer, the loop ends with their sum
    and their number in its accumulators. *)
Lemma for_each_post_sums (posts : list pyval) :
  forall a n s outcomes s',
    view_lookups w access_token username posts s = (Ret outcomes, s') ->
    Forall optional_int outcomes ->
    for_each_post w access_token username posts (PInt a) n s
    = (Ret (PInt (a + sum_views (obtained outcomes)), n + count_views (obtained outcomes)), s').
Proof.
  induction posts as [|post rest IH]; intros a n s outcomes s' H Hall.
  - simpl in H. injection H as <- <-. simpl. unfold ret, count_views. simpl.
    now rewrite !Z.add_0_r.
  - simpl in H.
    apply bind_returns in H as (media_id & s1 & Hid & H).
    apply lift_returns in Hid as [Hid ->].
    apply bind_returns in H as (views & s2 & Hv & H).
    apply bind_returns in H as ([] & s3 & Hsl & H).
    apply bind_returns in H as (rest_outcomes & s4 & Hl & H).
    injection H as <- <-. inversion Hall as [|v l Hv1 Hrest]; subst.
    simpl for_each_post. unfold bind at 1, lift. rewrite Hid.
    unfold bind at 1. rewrite Hv.
    destruct (optional_int_not_None views Hv1) as [[-> Hn]|[z [-> Hn]]];
      rewrite Hn.
    + unfold bind at 1, ret at 1. unfold bind at 1. rewrite Hsl.
      simpl fst. simpl snd. exact (IH _ _ _ _ _ Hl Hrest).
    + unfold bind at 1. unfold bind at 1, lift.
      change (Py.add (PInt a) (PInt z)) with (@Ret pyval (PInt (a + z))).
      unfold ret at 1. cbv beta iota. unfold bind at 1. rewrite Hsl.
      simpl fst. simpl snd. rewrite (IH _ _ _ _ _ Hl Hrest).
      simpl obtained. unfold count_views. simpl sum_views. simpl List.length.
      rewrite Nat2Z.inj_succ, Z.add_assoc.
      now replace (n + 1 + Z.of_nat (List.length (obtained rest_outcomes)))
        with (n + Z.succ (Z.of_nat (List.length (obtained rest_outcomes))))
        by lia.
Qed.

(** The trace of the lookups: one request per post, one sleep after each. *)
Lemma view_lookups_paced (posts : list pyval) :
  forall s outcomes s',
    view_lookups w access_token username posts s = (Ret outcomes, s') ->
    exists evs, trace s' = trace s ++ evs /\ paced (List.length posts) evs.
Proof.
  induction posts as [|post rest IH]; intros s outcomes s' H.
  - simpl in H. injection H as <- <-. exists []. split.
    + now rewrite app_nil_r.
    + constructor.
  - simpl in H.
    apply bind_returns in H as (media_id & s1 & Hid & H).
    apply lift_returns in Hid as [Hid ->].
    apply bind_returns in H as (views & s2 & Hv & H).
    apply bind_returns in H as ([] & s3 & Hsl & H).
    apply bind_returns in H as (rest_outcomes & s4 & Hl & H).
    injection H as <- <-.
    destruct (one_request_get_post_views w media_id access_token username s)
      as (lookup & Ht & Hr & Hs).
    rewrite Hv in Ht. simpl in Ht.
    apply IH in Hl as (evs & Hevs & Hp).
    injection Hsl as <-. simpl in Hevs.
    exists (lookup ++ Sleep pacing_delay :: evs). split.
    + rewrite Hevs, Ht. now rewrite <- !app_assoc.
    + now constructor.
Qed.

Lemma paced_sleeps (n : nat) (evs : list event) :
  paced n evs -> sleeps evs = repeat pacing_delay n /\ requests evs = n.
Proof.
  induction 1 as [|n lookup rest Hr Hs _ [IHs IHr]]; [now split|].
  rewrite sleeps_app, requests_app, Hs, Hr. simpl. now rewrite IHs, IHr.
Qed.

(** The loop raises no [ThreadsApiError]. *)
Lemma for_each_post_absorbs (posts : list pyval) :
  forall total n,
    raises_only (fun e => is_ThreadsApiError e = false)
      (for_each_post w access_token username posts total n).
Proof.
  induction posts as [|post rest IH]; intros total n; simpl.
  - apply raises_only_ret.
  - apply raises_only_bind.
    { apply raises_only_lift. intros e H.
      destruct (getitem_raises _ _ _ H) as [->|[->| ->]]; reflexivity. }
    intros media_id. apply raises_only_bind.
    { apply (raises_only_weaken _ _ _ (get_post_views_absorbs w _ _ _)).
      apply views_caught_ThreadsApiError. }
    intros views. apply raises_only_bind.
    { destruct (Py.is_not_None views); [| apply raises_only_ret].
      apply raises_only_bind; [| intro; apply raises_only_ret].
      apply raises_only_lift. intros e H.
      destruct (add_raises _ _ _ H) as [->|[->| ->]]; reflexivity. }
    intros acc. apply raises_only_bind; [apply raises_only_emit|].
    intros _. apply IH.
Qed.

End Aggregator.

(** ** The aggregator *)

Section Average.

Variable w : world.
Variables (access_token : string) (days : Z) (username : string).

Lemma raises_only_run {A : Type} (P : exn -> Prop) (c : M A) (s s' : state)
    (e : exn) :
  c s = (Raise e, s') -> raises_only P c -> P e.
Proof. intros H Hc. apply (Hc s). now rewrite H. Qed.

(** A run that returns went through the three stages, and returned the
    quotient of the accumulators or, after the warning, [None]. *)
Lemma get_average_impressions_returns (s s' : state) (r : pyval) :
  get_average_impressions w access_token days username s = (Ret r, s') ->
  exists posts items s1 total n s2,
    get_user_posts w access_token days username (entered username days s)
    = (Ret posts, s1) /\
    Py.iter posts = Ret items /\
    for_each_post w access_token username items (PInt 0) 0 s1
    = (Ret (total, n), s2) /\
    ((0 < n /\ Py.truediv total (PInt n) = Ret r /\
      s' = averaged username s2 r n) \/
     (n <= 0 /\ r = PNone /\ s' = warned username s2)).
Proof.
  unfold get_average_impressions, bind at 1. unfold log at 1, emit at 1.
  cbv beta iota.
  change (mkState (calls s) (trace s ++ [Log INFO (calculating username days)]))
    with (entered username days s).
  unfold try_except.
  destruct (bind _ _ (entered username days s)) as [[r0|e] sb] eqn:Hb.
  - intros H. injection H as -> ->.
    apply bind_returns in Hb as (posts & s1 & Hp & Hb).
    apply bind_returns in Hb as (items & s1' & Hi & Hb).
    apply lift_returns in Hi as [Hi ->].
    apply bind_returns in Hb as ([total n] & s2 & Hl & Hb).
    exists posts, items, s1, total, n, s2. repeat (split; [assumption|]).
    simpl in Hb. destruct (0 <? n) eqn:Hn.
    + apply Z.ltb_lt in Hn. left.
      apply bind_returns in Hb as (avg & s3 & Ha & Hb).
      apply lift_returns in Ha as [Ha ->].
      apply bind_returns in Hb as ([] & s4 & Hg & Hb).
      injection Hb as -> <-. injection Hg as <-. now repeat split.
    + apply Z.ltb_ge in Hn. right.
      apply bind_returns in Hb as ([] & s4 & Hg & Hb).
      injection Hb as <- <-. injection Hg as <-. now repeat split.
  - apply (raises_only_run (fun e => is_ThreadsApiError e = false)) in Hb.
    + rewrite Hb. discriminate.
    + apply raises_only_bind; [apply get_user_posts_absorbs|].
      intros posts. apply raises_only_bind.
      { apply raises_only_lift. intros e0 H. now rewrite (iter_raises _ _ H). }
      intros items. apply raises_only_bind; [apply for_each_post_absorbs|].
      intros acc. destruct (0 <? snd acc).
      * apply raises_only_bind.
        { apply raises_only_lift. intros e0 H.
          destruct (truediv_raises _ _ _ H) as [->|[->| ->]]; reflexivity. }
        intros avg. apply raises_only_bind; [apply raises_only_emit|].
        intros _. apply raises_only_ret.
      * apply raises_only_bind; [apply raises_only_emit|].
        intros _. apply raises_only_ret.
Qed.

(** And conversely: from the three stages, the run. *)
Lemma get_average_impressions_run (s : state) (posts total : pyval)
    (items : list pyval) (n : Z) (s1 s2 : state) :
  get_user_posts w access_token days username (entered username days s)
  = (Ret posts, s1) ->
  Py.iter posts = Ret items ->
  for_each_post w access_token username items (PInt 0) 0 s1
  = (Ret (total, n), s2) ->
  get_average_impressions w access_token days username s
  = if 0 <? n then
      match Py.truediv total (PInt n) with
      | Ret average => (Ret average, averaged username s2 average n)
      | Raise e => (Raise e, s2)
      end
    else (Ret PNone, warned username s2).
Proof.
  intros Hp Hi Hl.
  unfold get_average_impressions, bind at 1. unfold log at 1, emit at 1.
  cbv beta iota.
  change (mkState (calls s) (trace s ++ [Log INFO (calculating username days)]))
    with (entered username days s).
  unfold try_except, bind at 1. rewrite Hp.
  unfold bind at 1, lift. rewrite Hi.
  unfold bind at 1. rewrite Hl. cbn [fst snd].
  destruct (0 <? n); [| reflexivity].
  unfold bind at 1, lift.
  destruct (Py.truediv total (PInt n)) as [avg|e] eqn:Ha; [reflexivity|].
  destruct (truediv_raises _ _ _ Ha) as [->|[->| ->]]; reflexivity.
Qed.

End Average.

(** ** Runs in a well-formed world *)

Lemma truediv_int_raises (a b : Z) (e : exn) :
  0 < b -> Py.truediv (PInt a) (PInt b) = Raise e -> e = OverflowError.
Proof.
  intros Hb. unfold Py.truediv. simpl. unfold Py.pure_bind, Py.int_true_div.
  destruct (Z.eqb_spec b 0); [lia|].
  destruct (Py.finite_or_overflow _) eqn:E; [discriminate|].
  intros H. injection H as <-. now apply finite_or_overflow_raises in E.
Qed.

(** A response in order ends the request in [ThreadsApiError] or in its
    body. *)
Lemma make_api_request_in_order (w : world) (url : text) (params : query)
    (s : state) (r : response) :
  http w (calls s) url params = Received r ->
  in_order r ->
  (error_status r = true /\
   fst (make_api_request w url params s) = Raise (api_request_failed url)) \/
  (exists v, error_status r = false /\ body r = Some v /\
             fst (make_api_request w url params s) = Ret v).
Proof.
  intros H Hr. unfold in_order in Hr.
  destruct (error_status r) eqn:He.
  - left. split; [reflexivity|].
    destruct (Z.eq_dec (status_code r) 400) as [Hs|Hs].
    + specialize (Hr Hs).
      unfold make_api_request, requests_get, try_except, bind, raise_for_status.
      rewrite H, He. simpl.
      unfold request_failed, bind, local, try_except, json, lift. simpl.
      rewrite Hs. simpl.
      destruct (body r) as [b|]; [| reflexivity].
      destruct b; try contradiction. simpl.
      destruct (Py.dict_lookup items "error") as [info|]; [| reflexivity].
      destruct Hr as [Hf|[d ->]].
      * rewrite Hf. reflexivity.
      * destruct d as [|item d]; [reflexivity|]. simpl Py.truthy. cbv iota.
        unfold Py.get.
        destruct (Py.dict_lookup (item :: d) "message"),
                 (Py.dict_lookup (item :: d) "code"),
                 (Py.dict_lookup (item :: d) "error_subcode"); reflexivity.
    + now rewrite (make_api_request_http_error w url params s r H He Hs).
  - right. destruct (body r) as [v|] eqn:Hb; [| congruence].
    exists v. repeat split.
    now rewrite (make_api_request_success w url params s r v H He Hb).
Qed.

Section WellFormed.

Variable w : world.
Hypothesis Hw : well_formed w.
Variables (access_token : string) (days : Z) (username : string).

Lemma get_user_posts_well_formed (s : state) :
  date_days_ago w days <> None ->
  exists items,
    fst (get_user_posts w access_token days username s) = Ret (PList items) /\
    Forall has_id items.
Proof.
  intros Hd. destruct Hw as (Hall & Hposts & _).
  rewrite get_user_posts_outcome.
  destruct (date_days_ago w days) as [since|]; [| congruence].
  destruct (Hall (calls s) posts_url
              (posts_params since (date_today w) access_token))
    as (r & Hr & Ho).
  destruct (make_api_request_in_order w _ _ s r Hr Ho)
    as [[_ ->]|(data & He & Hb & ->)].
  - exists []. now split.
  - destruct (Hposts _ _ _ _ Hr He Hb) as (members & -> & Hdata).
    unfold Py.get.
    destruct (Py.dict_lookup members "data") as [posts|].
    + destruct Hdata as (items & -> & Hitems). exists items. now split.
    + exists []. now split.
Qed.

Lemma get_post_views_well_formed (media_id : pyval) (s : state) :
  exists views s',
    get_post_views w media_id access_token username s = (Ret views, s') /\
    optional_int views.
Proof.
  destruct Hw as (Hall & _ & Hviews).
  assert (H : exists views,
             fst (get_post_views w media_id access_token username s)
             = Ret views /\
             optional_int views).
  { rewrite get_post_views_outcome.
    destruct (Hall (calls s) (insights_url media_id) (views_params access_token))
      as (r & Hr & Ho).
    destruct (make_api_request_in_order w _ _ s r Hr Ho)
      as [[_ ->]|(data & He & Hb & ->)].
    - exists PNone. split; [reflexivity | now left].
    - specialize (Hviews _ _ _ _ _ Hr He Hb). unfold views_expected in Hviews.
      destruct (views_path data) as [v|e] eqn:Hp.
      + now exists v.
      + exists PNone. split; [| now left].
        destruct (views_path_raises _ _ Hp) as [->|[->| ->]];
          [reflexivity | reflexivity | congruence]. }
  destruct H as (views & Hv & Ho).
  destruct (get_post_views w media_id access_token username s) as [o s'].
  simpl in Hv. subst o. now exists views, s'.
Qed.

Lemma view_lookups_well_formed (items : list pyval) :
  Forall has_id items ->
  forall s,
    exists outcomes s',
      view_lookups w access_token username items s = (Ret outcomes, s') /\
      Forall optional_int outcomes.
Proof.
  induction 1 as [|post rest (members & id & -> & Hid) _ IH]; intros s.
  - exists [], s. now split.
  - destruct (get_post_views_well_formed id s) as (views & s1 & Hv & Ho).
    destruct (IH (snd (sleep pacing_delay s1))) as (outcomes & s2 & Hl & Hall).
    exists (views :: outcomes), s2. split; [| now constructor].
    simpl. unfold bind at 1, lift. rewrite Hid.
    unfold bind at 1. rewrite Hv.
    unfold bind at 1. unfold sleep at 1, emit at 1. cbv beta iota.
    unfold bind. unfold sleep, emit in Hl. simpl in Hl. rewrite Hl. reflexivity.
Qed.

(** In a well-formed world the run returns, unless the quotient is beyond
    the range of a float. *)
Lemma well_formed_run_returns (s : state) :
  date_days_ago w days <> None ->
  (exists r,
     fst (get_average_impressions w access_token days username s) = Ret r) \/
  fst (get_average_impressions w access_token days username s)
  = Raise OverflowError.
Proof.
  intros Hd.
  destruct (get_user_posts_well_formed (entered username days s) Hd)
    as (items & Hp & Hitems).
  destruct (get_user_posts w access_token days username (entered username days s))
    as [o s1] eqn:Hrun.
  simpl in Hp. subst o.
  destruct (view_lookups_well_formed items Hitems s1)
    as (outcomes & s2 & Hl & Hall).
  pose proof (for_each_post_sums w access_token username items 0 0 s1
                outcomes s2 Hl Hall) as Hloop.
  rewrite (get_average_impressions_run w access_token days username s
             _ _ items _ s1 s2 Hrun eq_refl Hloop).
  destruct (0 <? 0 + count_views (obtained outcomes)) eqn:Hc.
  - destruct (Py.truediv _ _) as [avg|e] eqn:Hdiv; [left; now exists avg|].
    right. simpl. f_equal. apply Z.ltb_lt in Hc.
    exact (truediv_int_raises _ _ _ Hc Hdiv).
  - left. now exists PNone.
Qed.

End WellFormed.

Lemma world_steady_well_formed : well_formed world_steady.
Proof.
  repeat split.
  - intros n url params. unfold world_steady. simpl.
    destruct url as [|[s| |] [|]]; eexists; (split; [reflexivity|]);
      unfold in_order; simpl; discriminate.
  - intros n params r data H _ Hb. simpl in H. injection H as <-.
    simpl in Hb. injection Hb as <-.
    eexists. split; [reflexivity|]. simpl.
    eexists. split; [reflexivity|].
    repeat constructor; eexists _, _; split; reflexivity.
  - intros n media_id params r data H _ Hb. simpl in H. injection H as <-.
    simpl in Hb. injection Hb as <-.
    unfold views_expected. simpl. right. now exists 100.
Qed.

(** * The claims *)

Lemma truediv_returns_float (x y v : pyval) :
  Py.truediv x y = Ret v -> exists q, v = PFloat q.
Proof.
  unfold Py.truediv, Py.pure_bind. intros H.
  destruct (Py.as_int x), (Py.as_int y);
    try (destruct (Py.int_true_div _ _); [| discriminate];
         injection H as <-; now eexists);
    destruct (Py.as_float x) as [[f|]|]; try discriminate;
    destruct (Py.as_float y) as [[g|]|]; try discriminate;
    destruct (Py.float_true_div f g); try discriminate;
    injection H as <-; now eexists.
Qed.

Lemma obtained_all_None (outcomes : list pyval) :
  Forall (eq PNone) outcomes -> obtained outcomes = [].
Proof. induction 1 as [|v l <- _ IH]; [reflexivity | exact IH]. Qed.

Lemma all_None_optional_int (outcomes : list pyval) :
  Forall (eq PNone) outcomes -> Forall optional_int outcomes.
Proof. apply Forall_impl. intros v <-. now left. Qed.



(** C2. [get_average_impressions] returns [None] exactly when no view count
    was obtained: the Post Fetcher returned its posts (none, possibly), every
    lookup was made and every outcome was [None].  Whenever the posts were
    fetched and every lookup gave [None], the run returns [None] and its
    last record is the warning "No valid posts found ...", not the error of
    the [except] branch; so does a run over no post at all, which makes no
    lookup. *)
Theorem none_exactly_when_no_view (w : world) (access_token : string) (days : Z)
    (username : string) (s : state) :
  (fst (get_average_impressions w access_token days username s) = Ret PNone
   <->
   exists posts items outcomes s1 s2,
     get_user_posts w access_token days username (entered username days s)
     = (Ret posts, s1) /\
     Py.iter posts = Ret items /\
     view_lookups w access_token username items s1 = (Ret outcomes, s2) /\
     Forall (eq PNone) outcomes) /\
  (forall posts items outcomes s1 s2,
     get_user_posts w access_token days username (entered username days s)
     = (Ret posts, s1) ->
     Py.iter posts = Ret items ->
     view_lookups w access_token username items s1 = (Ret outcomes, s2) ->
     Forall (eq PNone) outcomes ->
     get_average_impressions w access_token days username s
     = (Ret PNone,
        mkState (calls s2)
          (trace s2 ++ [Log WARNING (no_valid_posts username)]))) /\
  (forall posts s1,
     get_user_posts w access_token days username (entered username days s)
     = (Ret posts, s1) ->
     Py.iter posts = Ret [] ->
     get_average_impressions w access_token days username s
     = (Ret PNone,
        mkState (calls s1)
          (trace s1 ++ [Log WARNING (no_valid_posts username)]))).
Proof.
  assert (Hnone : forall posts items outcomes s1 s2,
     get_user_posts w access_token days username (entered username days s)
     = (Ret posts, s1) ->
     Py.iter posts = Ret items ->
     view_lookups w access_token username items s1 = (Ret outcomes, s2) ->
     Forall (eq PNone) outcomes ->
     get_average_impressions w access_token days username s
     = (Ret PNone,
        mkState (calls s2)
          (trace s2 ++ [Log WARNING (no_valid_posts username)]))).
  { intros posts items outcomes s1 s2 Hp Hi Hv Hall.
    pose proof (for_each_post_sums w access_token username items 0 0 s1
                  outcomes s2 Hv (all_None_optional_int _ Hall)) as Hloop.
    rewrite (get_average_impressions_run w access_token days username s
               posts _ items _ s1 s2 Hp Hi Hloop).
    rewrite (obtained_all_None _ Hall). reflexivity. }
  split; [split | split].
  - intros H.
    destruct (get_average_impressions w access_token days username s)
      as [o s'] eqn:Hrun.
    simpl in H. subst o.
    pose proof Hrun as Hr.
    apply get_average_impressions_returns in Hr
      as (posts & items & s1 & total & n & s2 & Hp & Hi & Hl & Hend).
    destruct (for_each_post_lookups w access_token username items _ _ _ _ _ _ Hl)
      as (outcomes & Hv & Hn).
    exists posts, items, outcomes, s1, s2. repeat (split; [assumption|]).
    destruct Hend as [(Hpos & Hdiv & _)|(Hle & _ & ->)].
    + apply truediv_returns_float in Hdiv as [q Hq]. discriminate.
    + apply filter_not_None_nil.
      destruct (filter Py.is_not_None outcomes); [reflexivity|].
      simpl in Hn. lia.
  - intros (posts & items & outcomes & s1 & s2 & Hp & Hi & Hv & Hall).
    now rewrite (Hnone _ _ _ _ _ Hp Hi Hv Hall).
  - exact Hnone.
  - intros posts s1 Hp Hi.
    exact (Hnone posts [] [] s1 s1 Hp Hi eq_refl (Forall_nil _)).
Qed.

(** Two posts, both lookups failing: the result is [None] and the last
    record of the run is the warning. *)
Lemma none_exactly_when_no_view_witness :
  exists s2,
    get_average_impressions world_all_failed "token" 7 "konomi_bura" init
    = (Ret PNone,
       mkState (calls s2)
         (trace s2 ++ [Log WARNING (no_valid_posts "konomi_bura")])).
Proof.
  eexists.
  eapply (proj1 (proj2 (none_exactly_when_no_view world_all_failed "token" 7
                          "konomi_bura" init)) _ _ [PNone; PNone]).
  - lazy; reflexivity.
  - reflexivity.
  - lazy; reflexivity.
  - repeat constructor.
Defined.

(** No post at all: [None], after the warning. *)
Example no_posts_no_average :
  get_average_impressions world_no_posts "token" 7 "konomi_bura" init
  = (Ret PNone,
     mkState 1
       [Log INFO (calculating "konomi_bura" 7);
        Log INFO [Lit "Fetching posts for user '"; Fmt (PStr "konomi_bura");
                  Lit "' for the last "; Fmt (PInt 7); Lit " days"];
        HttpGet posts_url (posts_params "2024-05-01" "2024-05-08" "token");
        Log INFO [Lit "Retrieved "; Fmt (PInt 0); Lit " posts for user '";
                  Fmt (PStr "konomi_bura"); Lit "'"];
        Log WARNING (no_valid_posts "konomi_bura")]).
Proof. vm_compute. reflexivity. Qed.

(** Views [50, 150, 100] give [100.0], the float of the integer 100. *)
Example three_views_average :
  exists q,
    Py.float_of_int 100 = Ret q /\
    fst (get_average_impressions
           (scripted [ok three_posts; ok (views_body (PInt 50));
                      ok (views_body (PInt 150)); ok (views_body (PInt 100))])
           "token" 7 "konomi_bura" init)
    = Ret (PFloat q).
Proof. eexists. split; vm_compute; reflexivity. Qed.

(** The pacing delay is the float [0.5], and [float_200] is [200.0]. *)
Lemma pacing_delay_is_half : Py.int_true_div 1 2 = Ret pacing_delay.
Proof. reflexivity. Qed.

Lemma float_200_is_200 : Py.float_of_int 200 = Ret float_200.
Proof. reflexivity. Qed.




(** C10. The username reaches nothing but the log: two runs of
    [get_average_impressions] in the same world that differ in the username
    only end the same way (the same value returned, or the same exception
    raised), after the same requests and sleeps. *)
Theorem username_reaches_only_the_log (w : world) (access_token : string)
    (days : Z) (username username' : string) (s : state) :
  fst (get_average_impressions w access_token days username s)
  = fst (get_average_impressions w access_token days username' s) /\
  same_but_logs (snd (get_average_impressions w access_token days username s))
                (snd (get_average_impressions w access_token days username' s)).
Proof.
  apply alike_get_average_impressions. apply same_but_logs_refl.
Qed.

(** C3. A request that gets no response does not end in [ThreadsApiError]:
    [requests.get] raises inside the [try], the handler reads the local
    name [response], which was never assigned, and [UnboundLocalError]
    leaves [make_api_request]; nothing is logged. *)
Theorem no_response_raises_UnboundLocalError (w : world) (url : text)
    (params : query) (s : state) (msg : string) :
  http w (calls s) url params = NoResponse msg ->
  make_api_request w url params s
  = (Raise UnboundLocalError,
     mkState (S (calls s)) (trace s ++ [HttpGet url params])).
Proof. apply make_api_request_no_response. Qed.

Lemma no_response_raises_UnboundLocalError_witness :
  fst (make_api_request world_offline posts_url
         (posts_params "2024-05-01" "2024-05-08" "token") init)
  = Raise UnboundLocalError.
Proof.
  exact (f_equal fst
           (no_response_raises_UnboundLocalError world_offline posts_url
              (posts_params "2024-05-01" "2024-05-08" "token") init
              "Connection refused" eq_refl)).
Defined.

(** What does hold of the client: a response with a 4xx or 5xx status other
    than 400 ends in [ThreadsApiError] carrying the URL, and a response with
    any other status is no failure for [raise_for_status]. *)
Lemma error_status_raises_ThreadsApiError (w : world) (url : text)
    (params : query) (s : state) (r : response) :
  http w (calls s) url params = Received r ->
  error_status r = true ->
  status_code r <> 400 ->
  fst (make_api_request w url params s) = Raise (api_request_failed url).
Proof.
  intros H He Hs.
  now rewrite (make_api_request_http_error w url params s r H He Hs).
Qed.

(** Status 400 with a JSON body that is no object: [.get] raises
    [AttributeError] inside the handler. *)
Example bad_request_with_array_body :
  fst (make_api_request
         (scripted [failed 400 "400 Client Error: Bad Request" (Some (PList []))])
         posts_url [] init)
  = Raise AttributeError.
Proof. reflexivity. Qed.

(** Status 300 (no error status for [raise_for_status]) with a JSON body:
    the body is returned. *)
Example multiple_choices_is_returned :
  fst (make_api_request
         (scripted [Received (mkResponse 300 "" (Some (PDict [])) "")])
         posts_url [] init)
  = Ret (PDict []).
Proof. reflexivity. Qed.

(** C5. When the request for the posts gets no response, [get_user_posts]
    does not return the empty list: the [UnboundLocalError] of
    [make_api_request] is not a [ThreadsApiError] and passes through its
    [except] clause. *)
Theorem get_user_posts_raises_without_response (w : world)
    (access_token : string) (days : Z) (username : string) (s : state)
    (since_date msg : string) :
  date_days_ago w days = Some since_date ->
  http w (calls s) posts_url
    (posts_params since_date (date_today w) access_token) = NoResponse msg ->
  fst (get_user_posts w access_token days username s) = Raise UnboundLocalError.
Proof.
  intros Hd Hh. rewrite get_user_posts_outcome, Hd.
  now rewrite (make_api_request_no_response w _ _ s msg Hh).
Qed.

Lemma get_user_posts_raises_without_response_witness :
  fst (get_user_posts world_offline "token" 7 "konomi_bura" init)
  = Raise UnboundLocalError.
Proof.
  exact (get_user_posts_raises_without_response world_offline "token" 7
           "konomi_bura" init "2024-05-01" "Connection refused"
           eq_refl eq_refl).
Defined.

(** What does hold of the Post Fetcher: a request that ends in
    [ThreadsApiError] gives the empty list, and so does a JSON object
    without a [data] member. *)
Lemma get_user_posts_degrades (w : world) (access_token : string) (days : Z)
    (username : string) (s : state) (since_date : string) :
  date_days_ago w days = Some since_date ->
  api_failure (fst (make_api_request w posts_url
                      (posts_params since_date (date_today w) access_token) s)) ->
  fst (get_user_posts w access_token days username s) = Ret (PList []).
Proof.
  intros Hd [m Hm]. now rewrite get_user_posts_outcome, Hd, Hm.
Qed.

Lemma get_user_posts_without_data (w : world) (access_token : string)
    (days : Z) (username : string) (s : state) (since_date : string)
    (members : list (string * pyval)) :
  date_days_ago w days = Some since_date ->
  fst (make_api_request w posts_url
         (posts_params since_date (date_today w) access_token) s)
  = Ret (PDict members) ->
  Py.dict_lookup members "data" = None ->
  fst (get_user_posts w access_token days username s) = Ret (PList []).
Proof.
  intros Hd Hm Hl. rewrite get_user_posts_outcome, Hd, Hm.
  unfold Py.get. now rewrite Hl.
Qed.




(** Which lookups end how. *)
Lemma getitem_missing_key (members : list (string * pyval)) (k : string) :
  Py.dict_lookup members k = None ->
  Py.getitem (PDict members) (Py.KStr k) = Raise KeyError.
Proof. intros H. simpl. now rewrite H. Qed.

Lemma getitem_empty_list : Py.getitem (PList []) (Py.KInt 0) = Raise IndexError.
Proof. reflexivity. Qed.

Lemma getitem_not_subscriptable (v : pyval) (key : Py.subscript) :
  match v with
  | PNone | PBool _ | PInt _ | PFloat _ => True
  | _ => False
  end ->
  Py.getitem v key = Raise TypeError.
Proof. destruct v, key; simpl; intros H; now try contradiction. Qed.

Lemma getitem_list_by_key (items : list pyval) (k : string) :
  Py.getitem (PList items) (Py.KStr k) = Raise TypeError.
Proof. reflexivity. Qed.



(** The steady world, run: three lookups of 100 views, average [100.0]. *)
Example steady_world_average :
  exists q,
    Py.float_of_int 100 = Ret q /\
    fst (get_average_impressions world_steady "token" 7 "konomi_bura" init)
    = Ret (PFloat q).
Proof. eexists. split; vm_compute; reflexivity. Qed.


(** So do the [TypeError] of a wrong-typed insights response and the
    [UnboundLocalError] of a request without a response. *)
Example wrong_type_surfaces :
  fst (get_average_impressions world_wrong_type "token" 7 "konomi_bura" init)
  = Raise TypeError.
Proof. vm_compute. reflexivity. Qed.

Example no_response_surfaces :
  fst (get_average_impressions world_offline "token" 7 "konomi_bura" init)
  = Raise UnboundLocalError.
Proof. vm_compute. reflexivity. Qed.

(** C7.  A response with an error status other than 400 has the raw text of
    the exception logged, once, at level ERROR, and [ThreadsApiError] raised;
    so has a response whose body is not JSON under a status that is no error
    (with [requests] from 2.27 on).  A response with status 400 and the body
    [{"error": {"message": "Invalid token", "code": 190, "error_subcode": 463}}]
    has the message
    "API request failed: Invalid token (Code: 190, Subcode: 463)" logged,
    once, at level ERROR, and [ThreadsApiError] raised. *)
Theorem structured_error_for_400_only (w : world) (url : text) (params : query)
    (s : state) (r : response) :
  http w (calls s) url params = Received r ->
  (error_status r = true -> status_code r <> 400 ->
   make_api_request w url params s
   = (Raise (api_request_failed url),
      mkState (S (calls s))
        (trace s ++ [HttpGet url params;
                     Log ERROR [Lit "API request failed: ";
                                Lit (http_error_text r)]]))) /\
  (error_status r = false -> body r = None ->
   json_error_is_request_exception w = true ->
   make_api_request w url params s
   = (Raise (api_request_failed url),
      mkState (S (calls s))
        (trace s ++ [HttpGet url params;
                     Log ERROR [Lit "API request failed: ";
                                Lit (json_error_text r)]]))) /\
  (status_code r = 400 -> body r = Some invalid_token ->
   exists message,
     make_api_request w url params s
     = (Raise (api_request_failed url),
        mkState (S (calls s))
          (trace s ++ [HttpGet url params; Log ERROR message])) /\
     Py.render message
     = Some "API request failed: Invalid token (Code: 190, Subcode: 463)").
Proof.
  intros H. repeat split.
  - now apply make_api_request_http_error.
  - now apply make_api_request_not_json.
  - intros Hs Hb. unfold invalid_token in Hb. eexists. split.
    + eapply (make_api_request_structured w url params s r _ _ H Hs Hb).
      * reflexivity.
      * discriminate.
    + reflexivity.
Qed.

Lemma structured_error_for_400_only_witness :
  exists message,
    make_api_request world_invalid_token posts_url [] init
    = (Raise (api_request_failed posts_url),
       mkState 1 [HttpGet posts_url []; Log ERROR message]) /\
    Py.render message
    = Some "API request failed: Invalid token (Code: 190, Subcode: 463)".
Proof.
  exact (proj2 (proj2
           (structured_error_for_400_only world_invalid_token posts_url [] init
              _ eq_refl)) eq_refl eq_refl).
Defined.

(** Status 404: the raw text. *)
Example not_found_logs_raw_text :
  make_api_request world_views_refused posts_url [] init
  = (Raise (api_request_failed posts_url),
     mkState 1 [HttpGet posts_url [];
                Log ERROR [Lit "API request failed: ";
                           Lit "404 Client Error: Not Found"]]).
Proof. reflexivity. Qed.

(** C9, as the code has it.  A value that [get_post_views] returns and that
    is not [None] is the value found at [data[0].values[0].value] in the JSON
    body of the response to its request, a response whose status was no
    error: whatever the API sent there, of any type and any sign. *)
Theorem get_post_views_returns_what_was_sent (w : world) (media_id : pyval)
    (access_token username : string) (s : state) (views : pyval) :
  fst (get_post_views w media_id access_token username s) = Ret views ->
  views <> PNone ->
  exists r data,
    http w (calls s) (insights_url media_id) (views_params access_token)
    = Received r /\
    error_status r = false /\
    body r = Some data /\
    views_path data = Ret views.
Proof.
  rewrite get_post_views_outcome. intros H Hne.
  destruct (make_api_request w (insights_url media_id)
              (views_params access_token) s) as [[data|e] s'] eqn:Hreq;
    simpl in H.
  - apply make_api_request_returns in Hreq as (r & Hh & He & Hb & _).
    exists r, data. repeat (split; [assumption|]).
    destruct (views_path data) as [v|e]; [now injection H as ->|].
    destruct (views_caught e); [| discriminate].
    injection H as <-. congruence.
  - destruct (views_caught e); [| discriminate].
    injection H as <-. congruence.
Qed.

Lemma get_post_views_returns_what_was_sent_witness :
  exists r data,
    http world_views_negative (calls init) (insights_url (PStr "17901"))
      (views_params "token") = Received r /\
    error_status r = false /\
    body r = Some data /\
    views_path data = Ret (PInt (-5)).
Proof.
  apply (get_post_views_returns_what_was_sent world_views_negative
           (PStr "17901") "token" "konomi_bura" init (PInt (-5))).
  - reflexivity.
  - discriminate.
Defined.

(** The API answers [-5], and [-5] is the view count returned; it answers
    a string, and the string is returned. *)
Lemma get_post_views_returns_negative :
  fst (get_post_views world_views_negative (PStr "17901") "token"
         "konomi_bura" init)
  = Ret (PInt (-5)) /\ -5 < 0.
Proof. split; reflexivity. Qed.

Example get_post_views_returns_string :
  fst (get_post_views (scripted [ok (views_body (PStr "many"))])
         (PStr "17901") "token" "konomi_bura" init)
  = Ret (PStr "many").
Proof. reflexivity. Qed.

(** * Further properties of the code *)

(** ** The API client *)

(** X1. [make_api_request] returns a value exactly when the request got a
    response whose status is no 4xx or 5xx and whose body is JSON; the value
    is the parsed body, unchanged, and nothing but the request is added to
    the trace (no log record, no sleep). *)
Theorem make_api_request_returns_the_body (w : world) (url : text)
    (params : query) (s s' : state) (v : pyval) :
  make_api_request w url params s = (Ret v, s')
  <->
  exists r,
    http w (calls s) url params = Received r /\
    error_status r = false /\
    body r = Some v /\
    s' = mkState (S (calls s)) (trace s ++ [HttpGet url params]).
Proof.
  split.
  - apply make_api_request_returns.
  - intros (r & H & He & Hb & ->).
    now apply (make_api_request_success w url params s r v).
Qed.

Lemma make_api_request_returns_the_body_witness :
  make_api_request world_no_posts posts_url [] init
  = (Ret (posts_body []), mkState 1 [HttpGet posts_url []]).
Proof.
  apply (proj2 (make_api_request_returns_the_body world_no_posts posts_url []
                  init _ (posts_body []))).
  eexists. repeat split; reflexivity.
Defined.

(** X2. Every call of [make_api_request] sends exactly one request (no
    retry) and writes at most one log record, an ERROR record that begins
    "API request failed: ".  It writes none when it returns; when it raises
    [ThreadsApiError] it has written one, and the message of the exception
    is "API request to <url> failed". *)
Theorem make_api_request_footprint (w : world) (url : text) (params : query)
    (s : state) :
  exists logs,
    snd (make_api_request w url params s)
    = mkState (S (calls s)) (trace s ++ HttpGet url params :: logs) /\
    (logs = [] \/
     exists rest, logs = [Log ERROR (Lit "API request failed: " :: rest)]) /\
    (forall v, fst (make_api_request w url params s) = Ret v -> logs = []) /\
    (forall m,
       fst (make_api_request w url params s) = Raise (ThreadsApiError m) ->
       m = [Lit "API request to "] ++ url ++ [Lit " failed"] /\ logs <> []).
Proof.
  unfold make_api_request, requests_get.
  destruct (http w (calls s) url params) as [r|msg]; simpl.
  2: { exists []. repeat split; try discriminate. now left. }
  unfold try_except, bind, raise_for_status, json, raise, ret.
  assert (F : forall e,
             exists logs,
               snd (request_failed url (Some r) e
                      (mkState (S (calls s)) (trace s ++ [HttpGet url params])))
               = mkState (S (calls s)) (trace s ++ HttpGet url params :: logs) /\
               (logs = [] \/
                exists rest,
                  logs = [Log ERROR (Lit "API request failed: " :: rest)]) /\
               (forall v,
                  fst (request_failed url (Some r) e
                         (mkState (S (calls s))
                            (trace s ++ [HttpGet url params])))
                  = Ret v -> logs = []) /\
               (forall m,
                  fst (request_failed url (Some r) e
                         (mkState (S (calls s))
                            (trace s ++ [HttpGet url params])))
                  = Raise (ThreadsApiError m) ->
                  m = [Lit "API request to "] ++ url ++ [Lit " failed"] /\
                  logs <> [])).
  { intros e.
    unfold request_failed, bind, local, try_except, json, lift, log, emit,
      raise, ret, Py.get, api_request_failed.
    simpl.
    repeat match goal with
           | |- context [match ?x with _ => _ end] =>
               match x with
               | context [match _ with _ => _ end] => fail 1
               | _ => destruct x eqn:?
               end
           end;
      simpl;
      try (exists []; rewrite ?app_nil_r;
           repeat split; try discriminate; now left);
      rewrite <- app_assoc; simpl;
      eexists; (split; [reflexivity|]);
      (split; [right; eexists; reflexivity|]);
      (split; [discriminate|]);
      intros m Hm; injection Hm as <-; (split; [reflexivity | discriminate]). }
  destruct (error_status r); simpl.
  - apply F.
  - destruct (body r) as [v|]; simpl.
    + exists []. repeat split; try discriminate. now left.
    + destruct (json_error_is_request_exception w); [apply F|].
      exists []. repeat split; try discriminate. now left.
Qed.

(** X3. Status 400 without usable details falls back to the raw text: when
    the body is no JSON (the [ValueError] is swallowed), or is a JSON object
    without an [error] member, or with an [error] member that is false
    (null, [{}], an empty string, 0), the record logged is
    "API request failed: " followed by the text of the exception, and
    [ThreadsApiError] is raised. *)
Theorem bad_request_without_details (w : world) (url : text) (params : query)
    (s : state) (r : response) :
  http w (calls s) url params = Received r ->
  status_code r = 400 ->
  (body r = None \/
   exists members,
     body r = Some (PDict members) /\
     (Py.dict_lookup members "error" = None \/
      exists info,
        Py.dict_lookup members "error" = Some info /\ Py.truthy info = false)) ->
  make_api_request w url params s
  = (Raise (api_request_failed url),
     mkState (S (calls s))
       (trace s ++ [HttpGet url params;
                    Log ERROR [Lit "API request failed: ";
                               Lit (http_error_text r)]])).
Proof.
  intros H Hs Hb.
  unfold make_api_request, requests_get, try_except, bind, raise_for_status.
  rewrite H, (error_status_400 r Hs). simpl.
  unfold request_failed, bind, local, try_except, json, lift. simpl.
  rewrite Hs. simpl.
  destruct Hb as [-> | (members & -> & [Hl | (info & Hl & Hf)])]; simpl;
    rewrite ?Hl, ?Hf; simpl; now rewrite <- app_assoc.
Qed.

Lemma bad_request_without_details_witness :
  make_api_request
    (scripted [failed 400 "400 Client Error: Bad Request"
                 (Some (PDict [("error", PNone)]))])
    posts_url [] init
  = (Raise (api_request_failed posts_url),
     mkState 1 [HttpGet posts_url [];
                Log ERROR [Lit "API request failed: ";
                           Lit "400 Client Error: Bad Request"]]).
Proof.
  apply (bad_request_without_details
           (scripted [failed 400 "400 Client Error: Bad Request"
                        (Some (PDict [("error", PNone)]))])
           posts_url [] init _ eq_refl eq_refl).
  right. eexists. split; [reflexivity|].
  right. eexists. split; reflexivity.
Defined.

(** X4. Status 400 with a non-empty [error] object: the record logged is
    built from the object's [message], [code] and [error_subcode]; a missing
    [message] is replaced by the text of the exception, a missing [code] or
    [error_subcode] by [None].  An object with a [message] only so logs
    "API request failed: <message> (Code: None, Subcode: None)". *)
Theorem bad_request_with_details (w : world) (url : text) (params : query)
    (s : state) (r : response) (members info : list (string * pyval)) :
  http w (calls s) url params = Received r ->
  status_code r = 400 ->
  body r = Some (PDict members) ->
  Py.dict_lookup members "error" = Some (PDict info) ->
  info <> [] ->
  let field (k : string) (default : pyval) :=
    match Py.dict_lookup info k with
    | Some v => v
    | None => default
    end in
  make_api_request w url params s
  = (Raise (api_request_failed url),
     mkState (S (calls s))
       (trace s ++
        [HttpGet url params;
         Log ERROR [Lit "API request failed: ";
                    Fmt (field "message" (PStr (http_error_text r)));
                    Lit " (Code: "; Fmt (field "code" PNone);
                    Lit ", Subcode: "; Fmt (field "error_subcode" PNone);
                    Lit ")"]])).
Proof.
  intros H Hs Hb Hi Hne field.
  exact (make_api_request_structured w url params s r members info
           H Hs Hb Hi Hne).
Qed.

Lemma bad_request_with_details_witness :
  exists message,
    make_api_request
      (scripted [failed 400 "400 Client Error: Bad Request"
                   (Some (PDict [("error",
                                  PDict [("message", PStr "Unsupported get request")])]))])
      posts_url [] init
    = (Raise (api_request_failed posts_url),
       mkState 1 [HttpGet posts_url []; Log ERROR message]) /\
    Py.render message
    = Some "API request failed: Unsupported get request (Code: None, Subcode: None)".
Proof.
  eexists. split.
  - apply (bad_request_with_details
             (scripted [failed 400 "400 Client Error: Bad Request"
                          (Some (PDict [("error",
                                         PDict [("message",
                                                 PStr "Unsupported get request")])]))])
             posts_url [] init _ _ _ eq_refl eq_refl eq_refl eq_refl).
    discriminate.
  - reflexivity.
Defined.

(** X5. With a [requests] older than 2.27 the error of [response.json()]
    is no [RequestException]: a body that is not JSON, under a status that
    is no 4xx or 5xx, makes [make_api_request] raise the [JSONDecodeError]
    itself, unlogged, and not [ThreadsApiError]. *)
Theorem old_requests_lets_the_decoding_error_out (w : world) (url : text)
    (params : query) (s : state) (r : response) :
  json_error_is_request_exception w = false ->
  http w (calls s) url params = Received r ->
  error_status r = false ->
  body r = None ->
  make_api_request w url params s
  = (Raise (JSONDecodeError (json_error_text r)),
     mkState (S (calls s)) (trace s ++ [HttpGet url params])).
Proof.
  intros Hv H He Hb.
  unfold make_api_request, requests_get, try_except, bind, raise_for_status, json.
  rewrite H, He, Hb, Hv. reflexivity.
Qed.

Lemma old_requests_lets_the_decoding_error_out_witness :
  make_api_request
    (scripted_old [Received (mkResponse 200 "" None "Expecting value")])
    posts_url [] init
  = (Raise (JSONDecodeError "Expecting value"),
     mkState 1 [HttpGet posts_url []]).
Proof.
  exact (old_requests_lets_the_decoding_error_out
           (scripted_old [Received (mkResponse 200 "" None "Expecting value")])
           posts_url [] init _ eq_refl eq_refl eq_refl eq_refl).
Defined.

(** ** The requests of the fetchers *)

Lemma quiet_silent (evs : list event) : quiet evs -> silent evs.
Proof.
  unfold silent. induction evs as [|ev evs IH]; intros [Hr Hs]; [reflexivity|].
  destruct ev; simpl in *; try discriminate.
  apply IH. now split.
Qed.

Lemma silent_app (a b : list event) : silent a -> silent b -> silent (a ++ b).
Proof. unfold silent. intros Ha Hb. now rewrite without_logs_app, Ha, Hb. Qed.

Lemma adds_weaken {A : Type} (P Q : list event -> Prop) (c : M A) :
  adds P c -> (forall x, P x -> Q x) -> adds Q c.
Proof.
  intros Hc HPQ s. destruct (Hc s) as (evs & Ht & Hp).
  exists evs. split; [exact Ht | now apply HPQ].
Qed.

Lemma adds_silent {A : Type} (c : M A) : adds quiet c -> adds silent c.
Proof. intros H. apply (adds_weaken _ _ _ H). apply quiet_silent. Qed.

Section Sent.

Variable w : world.

Lemma make_api_request_sends (url : text) (params : query) :
  adds (fun evs => without_logs evs = [HttpGet url params])
    (make_api_request w url params).
Proof.
  intros s. destruct (make_api_request_trace w url params s) as (evs & Ht & Hq).
  exists (HttpGet url params :: evs). split; [exact Ht|].
  simpl. now rewrite (quiet_silent _ Hq).
Qed.

(** A [try] block that begins with the request and goes on without another,
    with a handler that sends none. *)
Lemma request_in_try_sends {A : Type} (url : text) (params : query)
    (k : pyval -> M A) (classes : exn -> bool) (h : exn -> M A) :
  (forall data, adds quiet (k data)) ->
  (forall e, adds quiet (h e)) ->
  adds (fun evs => without_logs evs = [HttpGet url params])
    (try_except (bind (make_api_request w url params) k) classes h).
Proof.
  intros Hk Hh.
  assert (R : forall x y,
             without_logs x = [HttpGet url params] -> silent y ->
             without_logs (x ++ y) = [HttpGet url params]).
  { intros x y Hx Hy. rewrite without_logs_app, Hx, Hy. reflexivity. }
  apply (adds_try_except
           (fun evs => without_logs evs = [HttpGet url params]) silent _).
  - apply (adds_bind
             (fun evs => without_logs evs = [HttpGet url params]) silent _).
    + apply make_api_request_sends.
    + intros data. apply adds_silent. apply Hk.
    + auto.
    + exact R.
  - intros e. apply adds_silent. apply Hh.
  - auto.
  - exact R.
Qed.

Lemma get_post_views_sends (media_id : pyval) (access_token username : string) :
  adds (fun evs =>
          without_logs evs
          = [HttpGet (insights_url media_id) (views_params access_token)])
    (get_post_views w media_id access_token username).
Proof.
  unfold get_post_views, log.
  apply (adds_after_emit
           (fun evs =>
              without_logs evs
              = [HttpGet (insights_url media_id) (views_params access_token)]) _).
  - apply request_in_try_sends.
    + intros data. repeat quiet_step.
    + intros e. repeat quiet_step.
  - intros y Hy. exact Hy.
Qed.

End Sent.

(** The requests of [get_user_posts]. *)
Lemma get_user_posts_requests (w : world) (access_token : string) (days : Z)
    (username : string) (s : state) :
  without_logs (trace (snd (get_user_posts w access_token days username s)))
  = without_logs (trace s) ++
    match date_days_ago w days with
    | Some since_date =>
        [HttpGet posts_url
           (posts_params since_date (date_today w) access_token)]
    | None => []
    end.
Proof.
  unfold get_user_posts, bind at 1. unfold log at 1, emit at 1. cbv beta iota.
  unfold bind at 1.
  destruct (date_days_ago w days) as [since|]; simpl.
  - match goal with
    | |- context [try_except ?b ?c ?h ?st] =>
        destruct (request_in_try_sends w posts_url
                    (posts_params since (date_today w) access_token)
                    (fun data =>
                       posts <- lift (Py.get data "data" (PList [])) ;;
                       n <- lift (Py.len posts) ;;
                       log INFO (retrieved_posts n username) ;;;
                       ret posts)
                    c h
                    ltac:(intros data; unfold log; repeat quiet_step)
                    ltac:(intros e; unfold log; repeat quiet_step)
                    st)
          as (evs & Ht & He)
    end.
    unfold retrieved_posts in Ht. rewrite Ht. simpl.
    rewrite !without_logs_app, He. simpl. now rewrite app_nil_r.
  - rewrite without_logs_app. simpl. reflexivity.
Qed.

(** A call that returned had its date window. *)
Lemma get_user_posts_returned_has_dates (w : world) (access_token : string)
    (days : Z) (username : string) (s s' : state) (posts : pyval) :
  get_user_posts w access_token days username s = (Ret posts, s') ->
  exists since_date, date_days_ago w days = Some since_date.
Proof.
  intros H. pose proof (get_user_posts_outcome w access_token days username s)
    as Ho.
  rewrite H in Ho. simpl in Ho.
  destruct (date_days_ago w days) as [since|]; [now exists since | discriminate].
Qed.

(** X6. [get_user_posts] sends one request when the date window can be
    computed, and none when it cannot: the date arithmetic comes first, and
    its [OverflowError] leaves the function before anything is sent.  The
    request is a GET of [/me/threads] with the thirteen fields, the two
    dates, [limit] 100 and the token. *)
Theorem get_user_posts_sends (w : world) (access_token : string) (days : Z)
    (username : string) (s : state) :
  without_logs (trace (snd (get_user_posts w access_token days username s)))
  = without_logs (trace s) ++
    match date_days_ago w days with
    | Some since_date =>
        [HttpGet [Lit "https://graph.threads.net/v1.0/me/threads"]
           [("fields", PStr posts_fields);
            ("since", PStr since_date);
            ("until", PStr (date_today w));
            ("limit", PInt 100);
            ("access_token", PStr access_token)]]
    | None => []
    end /\
  (date_days_ago w days = None ->
   get_user_posts w access_token days username s
   = (Raise OverflowError,
      mkState (calls s) (trace s ++ [Log INFO (fetching_posts username days)]))).
Proof.
  split.
  - apply (get_user_posts_requests w access_token days username s).
  - intros Hd. unfold get_user_posts, bind, log, emit. simpl.
    now rewrite Hd.
Qed.

Lemma get_user_posts_sends_witness :
  get_user_posts world_before_year_one "token" 1000000 "konomi_bura" init
  = (Raise OverflowError,
     mkState 0 [Log INFO (fetching_posts "konomi_bura" 1000000)]).
Proof.
  exact (proj2 (get_user_posts_sends world_before_year_one "token" 1000000
                  "konomi_bura" init) eq_refl).
Defined.

(** ** The Post Fetcher *)

(** X7. When the response is a JSON object whose [data] member is a list,
    [get_user_posts] returns that list as it came (nothing filtered, nothing
    cut at 100, nothing reordered) and logs its length at INFO. *)
Theorem get_user_posts_returns_the_data (w : world) (access_token : string)
    (days : Z) (username : string) (s : state) (since_date : string)
    (r : response) (members : list (string * pyval)) (posts : list pyval) :
  date_days_ago w days = Some since_date ->
  http w (calls s) posts_url
    (posts_params since_date (date_today w) access_token) = Received r ->
  error_status r = false ->
  body r = Some (PDict members) ->
  Py.dict_lookup members "data" = Some (PList posts) ->
  get_user_posts w access_token days username s
  = (Ret (PList posts),
     mkState (S (calls s))
       (trace s ++
        [Log INFO (fetching_posts username days);
         HttpGet posts_url (posts_params since_date (date_today w) access_token);
         Log INFO (retrieved_posts (Z.of_nat (List.length posts)) username)])).
Proof.
  intros Hd Hh He Hb Hl.
  unfold get_user_posts, bind at 1. unfold log at 1, emit at 1. cbv beta iota.
  unfold bind at 1. rewrite Hd. unfold ret at 1. cbv beta iota.
  unfold try_except, bind at 1.
  rewrite (make_api_request_success w _ _ (mkState (calls s) _) r
             (PDict members) Hh He Hb).
  unfold request_sent, bind, lift, log, emit, ret, Py.get. simpl.
  rewrite Hl. simpl. now rewrite <- !app_assoc.
Qed.

Lemma get_user_posts_returns_the_data_witness :
  get_user_posts world_100_none_300 "token" 7 "konomi_bura" init
  = (Ret (PList [post_record "17901"; post_record "17902"; post_record "17903"]),
     mkState 1
       [Log INFO (fetching_posts "konomi_bura" 7);
        HttpGet posts_url (posts_params "2024-05-01" "2024-05-08" "token");
        Log INFO (retrieved_posts 3 "konomi_bura")]).
Proof.
  exact (get_user_posts_returns_the_data world_100_none_300 "token" 7
           "konomi_bura" init "2024-05-01" _ _ _
           eq_refl eq_refl eq_refl eq_refl eq_refl).
Defined.

(** X8. The default of [data.get("data", [])] covers a missing key only.  A
    [data] member that is null, a boolean or a number makes [len(posts)]
    raise [TypeError], and a response body that is no JSON object makes
    [data.get] raise [AttributeError]; both leave [get_user_posts], whose
    [except] clause names [ThreadsApiError] alone. *)
Theorem get_user_posts_unexpected_body (w : world) (access_token : string)
    (days : Z) (username : string) (s : state) (since_date : string)
    (r : response) (data : pyval) :
  date_days_ago w days = Some since_date ->
  http w (calls s) posts_url
    (posts_params since_date (date_today w) access_token) = Received r ->
  error_status r = false ->
  body r = Some data ->
  (forall members posts,
     data = PDict members ->
     Py.dict_lookup members "data" = Some posts ->
     match posts with
     | PNone | PBool _ | PInt _ | PFloat _ => True
     | _ => False
     end ->
     fst (get_user_posts w access_token days username s) = Raise TypeError) /\
  (match data with
   | PDict _ => False
   | _ => True
   end ->
   fst (get_user_posts w access_token days username s) = Raise AttributeError).
Proof.
  intros Hd Hh He Hb.
  rewrite get_user_posts_outcome, Hd.
  rewrite (make_api_request_success w _ _ _ r data Hh He Hb). simpl.
  split.
  - intros members posts -> Hl Hp. unfold Py.get. rewrite Hl.
    destruct posts; simpl; now try contradiction.
  - intros Hdata. destruct data; simpl; now try contradiction.
Qed.

Lemma get_user_posts_unexpected_body_witness :
  fst (get_user_posts (scripted [ok (PDict [("data", PNone)])]) "token" 7
         "konomi_bura" init)
  = Raise TypeError.
Proof.
  apply (proj1 (get_user_posts_unexpected_body
                  (scripted [ok (PDict [("data", PNone)])]) "token" 7
                  "konomi_bura" init "2024-05-01" _ _
                  eq_refl eq_refl eq_refl eq_refl)
           [("data", PNone)] PNone eq_refl eq_refl I).
Defined.

(** Neither the client's own errors, nor those of a subscript or of
    arithmetic, are of the classes [except requests.RequestException]
    catches. *)
Lemma request_error_not_of_requests (w : world) (url : text) (e : exn) :
  request_error w url e ->
  is_RequestException (json_error_is_request_exception w) e = false.
Proof.
  intros [->|[->|[->|[Hj [m ->]]]]]; try reflexivity. exact Hj.
Qed.

Lemma lookup_error_not_of_requests (new_requests : bool) (e : exn) :
  lookup_error e -> is_RequestException new_requests e = false.
Proof. intros [->|[->| ->]]; reflexivity. Qed.

Lemma arithmetic_error_not_of_requests (new_requests : bool) (e : exn) :
  arithmetic_error e -> is_RequestException new_requests e = false.
Proof. intros [->|[->| ->]]; reflexivity. Qed.

Lemma get_user_posts_raises_none_of_requests (w : world)
    (access_token : string) (days : Z) (username : string) :
  raises_only
    (fun e => is_RequestException (json_error_is_request_exception w) e = false)
    (get_user_posts w access_token days username).
Proof.
  intros s e. rewrite get_user_posts_outcome.
  destruct (date_days_ago w days) as [since|];
    [| intros H; now injection H as <-].
  destruct (fst (make_api_request w posts_url _ s)) as [data|e0] eqn:Hreq.
  - destruct (Py.get data "data" (PList [])) as [posts|e1] eqn:Hg.
    + destruct (Py.len posts) as [n|e2] eqn:Hl; [discriminate|].
      intros H. injection H as <-. now rewrite (len_raises _ _ Hl).
    + intros H. injection H as <-. now rewrite (get_raises _ _ _ _ Hg).
  - destruct (is_ThreadsApiError e0) eqn:T; [discriminate|].
    intros H. injection H as <-.
    exact (request_error_not_of_requests w posts_url e0
             (make_api_request_raises w posts_url _ s e0 Hreq)).
Qed.

Lemma get_post_views_raises_none_of_requests (w : world) (media_id : pyval)
    (access_token username : string) :
  raises_only
    (fun e => is_RequestException (json_error_is_request_exception w) e = false)
    (get_post_views w media_id access_token username).
Proof.
  intros s e. rewrite get_post_views_outcome.
  destruct (fst (make_api_request w (insights_url media_id) _ s))
    as [data|e0] eqn:Hreq.
  - destruct (views_path data) as [v|e1] eqn:Hp; [discriminate|].
    destruct (views_caught e1) eqn:T; [discriminate|].
    intros H. injection H as <-.
    exact (lookup_error_not_of_requests _ e1 (views_path_raises _ _ Hp)).
  - destruct (views_caught e0) eqn:T; [discriminate|].
    intros H. injection H as <-.
    exact (request_error_not_of_requests w (insights_url media_id) e0
             (make_api_request_raises w (insights_url media_id) _ s e0 Hreq)).
Qed.

Lemma for_each_post_raises_none_of_requests (w : world)
    (access_token username : string) (posts : list pyval) :
  forall total_views valid_post_count,
    raises_only
      (fun e => is_RequestException (json_error_is_request_exception w) e = false)
      (for_each_post w access_token username posts total_views valid_post_count).
Proof.
  induction posts as [|post rest IH]; intros total_views valid_post_count; simpl.
  - apply raises_only_ret.
  - apply raises_only_bind.
    { apply raises_only_lift. intros e H.
      exact (lookup_error_not_of_requests _ e (getitem_raises _ _ _ H)). }
    intros media_id. apply raises_only_bind.
    { apply get_post_views_raises_none_of_requests. }
    intros views. apply raises_only_bind.
    { destruct (Py.is_not_None views); [| apply raises_only_ret].
      apply raises_only_bind; [| intros total; apply raises_only_ret].
      apply raises_only_lift. intros e H.
      exact (arithmetic_error_not_of_requests _ e (add_raises _ _ _ H)). }
    intros acc. apply raises_only_bind; [apply raises_only_emit|].
    intros _. apply IH.
Qed.

Lemma get_average_impressions_raises_none_of_requests (w : world)
    (access_token : string) (days : Z) (username : string) :
  raises_only
    (fun e => is_RequestException (json_error_is_request_exception w) e = false)
    (get_average_impressions w access_token days username).
Proof.
  unfold get_average_impressions.
  apply raises_only_bind; [apply raises_only_emit|]. intros _.
  apply (raises_only_try_except _
           (fun e => is_RequestException
                       (json_error_is_request_exception w) e = false)).
  - apply raises_only_bind;
      [apply get_user_posts_raises_none_of_requests|].
    intros posts. apply raises_only_bind.
    { apply raises_only_lift. intros e H.
      now rewrite (iter_raises _ _ H). }
    intros items. apply raises_only_bind;
      [apply for_each_post_raises_none_of_requests|].
    intros acc. destruct (0 <? snd acc).
    + apply raises_only_bind.
      { apply raises_only_lift. intros e H.
        exact (arithmetic_error_not_of_requests _ e (truediv_raises _ _ _ H)). }
      intros average_views.
      apply raises_only_bind; [apply raises_only_emit|].
      intros _. apply raises_only_ret.
    + apply raises_only_bind; [apply raises_only_emit|].
      intros _. apply raises_only_ret.
  - intros e H _. exact H.
  - intros e. apply raises_only_bind; [apply raises_only_emit|].
    intros _. apply raises_only_ret.
Qed.

(** X9. No exception of the [requests] library leaves the program's
    functions.  Whatever [make_api_request], [get_user_posts],
    [get_post_views] or [get_average_impressions] raises is none of those
    [except requests.RequestException] catches: neither [HTTPError] nor
    [ConnectionError], nor, with [requests] from 2.27 on, its
    [JSONDecodeError].  Each of these is raised inside the [try] of
    [make_api_request] only, where the handler replaces it by
    [ThreadsApiError] or by an exception of its own. *)
Theorem no_requests_exception_leaves (w : world) (access_token : string)
    (days : Z) (username : string) (s : state) (e : exn) :
  (forall url params,
     fst (make_api_request w url params s) = Raise e ->
     is_RequestException (json_error_is_request_exception w) e = false) /\
  (fst (get_user_posts w access_token days username s) = Raise e ->
   is_RequestException (json_error_is_request_exception w) e = false) /\
  (forall media_id,
     fst (get_post_views w media_id access_token username s) = Raise e ->
     is_RequestException (json_error_is_request_exception w) e = false) /\
  (fst (get_average_impressions w access_token days username s) = Raise e ->
   is_RequestException (json_error_is_request_exception w) e = false).
Proof.
  split; [| split; [| split]].
  - intros url params H.
    exact (request_error_not_of_requests w url e
             (make_api_request_raises w url params s e H)).
  - apply get_user_posts_raises_none_of_requests.
  - intros media_id. apply get_post_views_raises_none_of_requests.
  - apply get_average_impressions_raises_none_of_requests.
Qed.

(** Without a network [requests.get] raises [ConnectionError]; what leaves
    [get_average_impressions] is the [UnboundLocalError] of the handler. *)
Lemma no_requests_exception_leaves_witness :
  fst (requests_get world_offline posts_url [] init)
  = Raise (ConnectionError "Connection refused") /\
  fst (get_average_impressions world_offline "token" 7 "konomi_bura" init)
  = Raise UnboundLocalError /\
  is_RequestException (json_error_is_request_exception world_offline)
    UnboundLocalError = false.
Proof.
  split; [reflexivity|]. split; [vm_compute; reflexivity|].
  apply (proj2 (proj2 (proj2
           (no_requests_exception_leaves world_offline "token" 7 "konomi_bura"
              init UnboundLocalError)))).
  vm_compute. reflexivity.
Defined.

(** ** The View Fetcher *)

(** X10. When the lookup [data["data"][0]["values"][0]["value"]] succeeds,
    [get_post_views] returns what it found and logs it at INFO, with no
    ERROR record.  That holds of a JSON null too: the function then returns
    [None], as for a failure, after logging "Post <id> has None views". *)
Theorem get_post_views_logs_what_it_found (w : world) (media_id : pyval)
    (access_token username : string) (s : state) (r : response)
    (data views : pyval) :
  http w (calls s) (insights_url media_id) (views_params access_token)
  = Received r ->
  error_status r = false ->
  body r = Some data ->
  views_path data = Ret views ->
  get_post_views w media_id access_token username s
  = (Ret views,
     mkState (S (calls s))
       (trace s ++
        [Log INFO (fetching_views media_id username);
         HttpGet (insights_url media_id) (views_params access_token);
         Log INFO (has_views media_id views username)])).
Proof.
  intros Hh He Hb Hp.
  unfold get_post_views, bind at 1. unfold log at 1, emit at 1. cbv beta iota.
  unfold try_except, bind at 1.
  rewrite (make_api_request_success w _ _ (mkState (calls s) _) r data Hh He Hb).
  unfold request_sent, bind, lift, log, emit, ret. simpl.
  rewrite Hp. simpl. now rewrite <- !app_assoc.
Qed.

Lemma get_post_views_logs_what_it_found_witness :
  get_post_views (scripted [ok (views_body PNone)]) (PStr "17901") "token"
    "konomi_bura" init
  = (Ret PNone,
     mkState 1
       [Log INFO (fetching_views (PStr "17901") "konomi_bura");
        HttpGet (insights_url (PStr "17901")) (views_params "token");
        Log INFO (has_views (PStr "17901") PNone "konomi_bura")]).
Proof.
  exact (get_post_views_logs_what_it_found (scripted [ok (views_body PNone)])
           (PStr "17901") "token" "konomi_bura" init _ _ PNone
           eq_refl eq_refl eq_refl eq_refl).
Defined.

(** X11. A failed lookup is logged at ERROR, once or twice.  When the body
    came but the path into it ends in [KeyError] or [IndexError], the one
    record is "Failed to fetch views ...".  When the response has a 4xx or
    5xx status other than 400, the record of [make_api_request] comes first
    and "Failed to fetch views ..." second.  Either way the result is
    [None]. *)
Theorem get_post_views_logs_the_failure (w : world) (media_id : pyval)
    (access_token username : string) (s : state) (r : response) :
  http w (calls s) (insights_url media_id) (views_params access_token)
  = Received r ->
  (forall data e,
     error_status r = false -> body r = Some data ->
     views_path data = Raise e -> e = KeyError \/ e = IndexError ->
     get_post_views w media_id access_token username s
     = (Ret PNone,
        mkState (S (calls s))
          (trace s ++
           [Log INFO (fetching_views media_id username);
            HttpGet (insights_url media_id) (views_params access_token);
            Log ERROR (failed_to_fetch_views media_id username)]))) /\
  (error_status r = true -> status_code r <> 400 ->
   get_post_views w media_id access_token username s
   = (Ret PNone,
      mkState (S (calls s))
        (trace s ++
         [Log INFO (fetching_views media_id username);
          HttpGet (insights_url media_id) (views_params access_token);
          Log ERROR [Lit "API request failed: "; Lit (http_error_text r)];
          Log ERROR (failed_to_fetch_views media_id username)]))).
Proof.
  intros Hh. split.
  - intros data e He Hb Hp Hk.
    unfold get_post_views, bind at 1. unfold log at 1, emit at 1. cbv beta iota.
    unfold try_except, bind at 1.
    rewrite (make_api_request_success w _ _ (mkState (calls s) _) r data
               Hh He Hb).
    unfold request_sent, bind, lift, log, emit, ret. simpl.
    rewrite Hp. destruct Hk as [-> | ->]; simpl; now rewrite <- !app_assoc.
  - intros He Hs.
    unfold get_post_views, bind at 1. unfold log at 1, emit at 1. cbv beta iota.
    unfold try_except, bind at 1.
    rewrite (make_api_request_http_error w _ _ (mkState (calls s) _) r
               Hh He Hs).
    unfold request_logged, bind, lift, log, emit, ret. simpl.
    now rewrite <- !app_assoc.
Qed.

Lemma get_post_views_logs_the_failure_witness :
  get_post_views world_views_refused (PStr "17901") "token" "konomi_bura" init
  = (Ret PNone,
     mkState 1
       [Log INFO (fetching_views (PStr "17901") "konomi_bura");
        HttpGet (insights_url (PStr "17901")) (views_params "token");
        Log ERROR [Lit "API request failed: "; Lit "404 Client Error: Not Found"];
        Log ERROR (failed_to_fetch_views (PStr "17901") "konomi_bura")]).
Proof.
  apply (proj2 (get_post_views_logs_the_failure world_views_refused
                  (PStr "17901") "token" "konomi_bura" init _ eq_refl)).
  - reflexivity.
  - discriminate.
Defined.

(** ** The aggregator *)

Section Loop.

Variable w : world.
Variables access_token username : string.

(** The loop over two lists of posts in a row is the loop over the first
    followed by the loop over the second, from the accumulators and the
    state the first one left. *)
Lemma for_each_post_concat (posts more : list pyval) :
  forall total n s,
    for_each_post w access_token username (posts ++ more) total n s
    = match for_each_post w access_token username posts total n s with
      | (Ret acc, s1) =>
          for_each_post w access_token username more (fst acc) (snd acc) s1
      | (Raise e, s1) => (Raise e, s1)
      end.
Proof.
  induction posts as [|post rest IH]; intros total n s; [reflexivity|].
  simpl. unfold bind, lift, sleep, emit, ret.
  destruct (Py.getitem post (Py.KStr "id")) as [media_id|e]; [| reflexivity].
  destruct (get_post_views w media_id access_token username s)
    as [[views|e] s2]; [| reflexivity].
  destruct (Py.is_not_None views).
  - destruct (Py.add total views) as [t|e]; [| reflexivity]. apply IH.
  - apply IH.
Qed.


(** X12. The first view that cannot be added ends the run on the spot.
    After posts whose lookups gave integers or [None], a lookup that
    returns a value [v] for which [total_views + v] raises (a string, a
    list, an object: [TypeError]) makes the loop raise that exception in
    the state just after the lookup: the sleep that would follow it is not
    made and the remaining posts are not visited. *)
Theorem for_each_post_stops_at_bad_view (before rest : list pyval)
    (post media_id views : pyval) (outcomes : list pyval) (a n : Z)
    (s s1 s2 : state) (e : exn) :
  view_lookups w access_token username before s = (Ret outcomes, s1) ->
  Forall optional_int outcomes ->
  Py.getitem post (Py.KStr "id") = Ret media_id ->
  get_post_views w media_id access_token username s1 = (Ret views, s2) ->
  views <> PNone ->
  Py.add (PInt (a + sum_views (obtained outcomes))) views = Raise e ->
  for_each_post w access_token username (before ++ post :: rest) (PInt a) n s
  = (Raise e, s2).
Proof.
  intros Hl Hall Hid Hv Hne Hadd.
  rewrite for_each_post_concat.
  rewrite (for_each_post_sums w access_token username before a n s
             outcomes s1 Hl Hall).
  cbn [fst snd]. simpl for_each_post.
  unfold bind at 1, lift. rewrite Hid.
  unfold bind at 1. rewrite Hv.
  assert (Hnn : Py.is_not_None views = true)
    by (destruct views; [contradiction|..]; reflexivity).
  rewrite Hnn. unfold bind at 1. unfold bind at 1. rewrite Hadd. reflexivity.
Qed.

End Loop.

(** Views [100, "many", 300]: [TypeError] at the second post, after the one
    sleep that followed the first. *)
Lemma for_each_post_stops_at_bad_view_witness :
  fst (for_each_post
         (scripted [ok (views_body (PInt 100)); ok (views_body (PStr "many"));
                    ok (views_body (PInt 300))])
         "token" "konomi_bura"
         ([post_record "17901"] ++ post_record "17902" :: [post_record "17903"])
         (PInt 0) 0 init)
  = Raise TypeError /\
  sleeps (trace (snd (for_each_post
         (scripted [ok (views_body (PInt 100)); ok (views_body (PStr "many"));
                    ok (views_body (PInt 300))])
         "token" "konomi_bura"
         ([post_record "17901"] ++ post_record "17902" :: [post_record "17903"])
         (PInt 0) 0 init)))
  = [pacing_delay].
Proof.
  erewrite (for_each_post_stops_at_bad_view
              (scripted [ok (views_body (PInt 100));
                         ok (views_body (PStr "many"));
                         ok (views_body (PInt 300))])
              "token" "konomi_bura" [post_record "17901"] [post_record "17903"]
              (post_record "17902") (PStr "17902") (PStr "many") [PInt 100]
              0 0 init).
  2: vm_compute; reflexivity.
  2: apply Forall_cons; [right; now exists 100 | apply Forall_nil].
  2: reflexivity.
  2: vm_compute; reflexivity.
  2: discriminate.
  2: reflexivity.
  split; reflexivity.
Defined.

Section Order.

Variable w : world.
Variables access_token username : string.

Lemma view_lookups_sends (posts : list pyval) :
  forall s outcomes s',
    view_lookups w access_token username posts s = (Ret outcomes, s') ->
    exists ids,
      ids_of posts ids /\
      without_logs (trace s')
      = without_logs (trace s) ++ lookup_events access_token ids.
Proof.
  induction posts as [|post rest IH]; intros s outcomes s' H.
  - simpl in H. injection H as <- <-. exists []. split; [constructor|].
    simpl. now rewrite app_nil_r.
  - simpl in H.
    apply bind_returns in H as (media_id & s1 & Hid & H).
    apply lift_returns in Hid as [Hid ->].
    apply bind_returns in H as (views & s2 & Hv & H).
    apply bind_returns in H as ([] & s3 & Hsl & H).
    apply bind_returns in H as (rest_outcomes & s4 & Hl & H).
    injection H as <- <-.
    destruct (get_post_views_sends w media_id access_token username s)
      as (evs & Ht & He).
    rewrite Hv in Ht. simpl in Ht.
    apply IH in Hl as (ids & Hids & Hrest).
    injection Hsl as <-. simpl in Hrest.
    exists (media_id :: ids). split; [now constructor|].
    rewrite Hrest, !without_logs_app, Ht, without_logs_app, He. simpl.
    now rewrite <- !app_assoc.
Qed.

End Order.

(** X13. The requests of a run that comes to its end, in order: first the
    one for the posts, then for each post in turn the one for the insights
    of that post's [id], followed by the sleep; nothing else is sent, no
    post is skipped or asked about twice. *)
Theorem requests_follow_the_posts (w : world) (access_token : string)
    (days : Z) (username : string) (s s1 s' : state) (posts r : pyval)
    (items : list pyval) :
  get_user_posts w access_token days username (entered username days s)
  = (Ret posts, s1) ->
  Py.iter posts = Ret items ->
  get_average_impressions w access_token days username s = (Ret r, s') ->
  exists since_date ids,
    date_days_ago w days = Some since_date /\
    ids_of items ids /\
    without_logs (trace s')
    = without_logs (trace s) ++
      HttpGet posts_url (posts_params since_date (date_today w) access_token)
      :: lookup_events access_token ids.
Proof.
  intros Hp Hi Hrun.
  apply get_average_impressions_returns in Hrun
    as (posts' & items' & s1' & total & n & s2 & Hp' & Hi' & Hl & Hend).
  rewrite Hp in Hp'. injection Hp' as <- <-.
  rewrite Hi in Hi'. injection Hi' as <-.
  destruct (for_each_post_lookups w access_token username items _ _ _ _ _ _ Hl)
    as (outcomes & Hv & _).
  destruct (view_lookups_sends w access_token username items _ _ _ Hv)
    as (ids & Hids & Hsent).
  pose proof (get_user_posts_requests w access_token days username
                (entered username days s)) as Hposts.
  rewrite Hp in Hposts. simpl in Hposts.
  destruct (get_user_posts_returned_has_dates w access_token days username
              _ _ _ Hp) as [since Hd].
  rewrite Hd in Hposts |- *.
  exists since, ids. split; [reflexivity|]. split; [exact Hids|].
  assert (Hs' : without_logs (trace s') = without_logs (trace s2)).
  { destruct Hend as [(_ & _ & ->)|(_ & _ & ->)]; simpl;
      rewrite without_logs_app; simpl; apply app_nil_r. }
  rewrite Hs', Hsent, Hposts, without_logs_app. simpl.
  rewrite app_nil_r, <- app_assoc. reflexivity.
Qed.

Lemma requests_follow_the_posts_witness :
  exists since_date ids,
    date_days_ago world_100_none_300 7 = Some since_date /\
    ids_of [post_record "17901"; post_record "17902"; post_record "17903"] ids /\
    without_logs
      (trace (snd (get_average_impressions world_100_none_300 "token" 7
                     "konomi_bura" init)))
    = without_logs (trace init) ++
      HttpGet posts_url
        (posts_params since_date (date_today world_100_none_300) "token")
      :: lookup_events "token" ids.
Proof.
  apply (requests_follow_the_posts world_100_none_300 "token" 7
           "konomi_bura" init
           (snd (get_user_posts world_100_none_300 "token" 7 "konomi_bura"
                   (entered "konomi_bura" 7 init)))
           (snd (get_average_impressions world_100_none_300 "token" 7
                   "konomi_bura" init))
           (PList [post_record "17901"; post_record "17902";
                   post_record "17903"])
           (PFloat float_200)).
  - vm_compute. reflexivity.
  - reflexivity.
  - vm_compute. reflexivity.
Defined.

(** The same run, computed. *)
Example requests_of_the_scenario :
  without_logs
    (trace (snd (get_average_impressions world_100_none_300 "token" 7
                   "konomi_bura" init)))
  = [HttpGet posts_url (posts_params "2024-05-01" "2024-05-08" "token");
     HttpGet (insights_url (PStr "17901")) (views_params "token");
     Sleep pacing_delay;
     HttpGet (insights_url (PStr "17902")) (views_params "token");
     Sleep pacing_delay;
     HttpGet (insights_url (PStr "17903")) (views_params "token");
     Sleep pacing_delay].
Proof. vm_compute. reflexivity. Qed.

(** ** The token *)

Lemma carries_token_app (access_token : string) (a b : list event) :
  carries_token access_token a -> carries_token access_token b ->
  carries_token access_token (a ++ b).
Proof. unfold carries_token. intros Ha Hb. apply Forall_app. now split. Qed.

Lemma quiet_carries_token (access_token : string) (evs : list event) :
  quiet evs -> carries_token access_token evs.
Proof.
  unfold carries_token.
  induction evs as [|ev evs IH]; intros [Hr Hs]; [constructor|].
  destruct ev; simpl in *; try discriminate.
  constructor; [exact I | apply IH; now split].
Qed.

Lemma carries_token_bind {A B : Type} (access_token : string) (c : M A)
    (k : A -> M B) :
  adds (carries_token access_token) c ->
  (forall a, adds (carries_token access_token) (k a)) ->
  adds (carries_token access_token) (bind c k).
Proof.
  intros Hc Hk.
  apply (adds_bind (carries_token access_token) (carries_token access_token) _);
    auto using carries_token_app.
Qed.

Lemma carries_token_try_except {A : Type} (access_token : string) (c : M A)
    (classes : exn -> bool) (h : exn -> M A) :
  adds (carries_token access_token) c ->
  (forall e, adds (carries_token access_token) (h e)) ->
  adds (carries_token access_token) (try_except c classes h).
Proof.
  intros Hc Hh.
  apply (adds_try_except (carries_token access_token)
           (carries_token access_token) _);
    auto using carries_token_app.
Qed.

Lemma carries_token_quiet {A : Type} (access_token : string) (c : M A) :
  adds quiet c -> adds (carries_token access_token) c.
Proof.
  intros H. apply (adds_weaken _ _ _ H). apply quiet_carries_token.
Qed.

Section Token.

Variable w : world.
Variable access_token : string.

Lemma make_api_request_carries_token (url : text) (params : query) :
  Py.dict_lookup params "access_token" = Some (PStr access_token) ->
  adds (carries_token access_token) (make_api_request w url params).
Proof.
  intros Hp s.
  destruct (make_api_request_trace w url params s) as (evs & Ht & Hq).
  exists (HttpGet url params :: evs). split; [exact Ht|].
  constructor; [exact Hp | now apply quiet_carries_token].
Qed.

Lemma get_user_posts_carries_token (days : Z) (username : string) :
  adds (carries_token access_token)
    (get_user_posts w access_token days username).
Proof.
  unfold get_user_posts.
  apply carries_token_bind.
  { apply carries_token_quiet. unfold log. repeat quiet_step. }
  intros _. apply carries_token_bind.
  { apply carries_token_quiet. repeat quiet_step. }
  intros since. apply carries_token_try_except.
  - apply carries_token_bind.
    + now apply make_api_request_carries_token.
    + intros data. apply carries_token_quiet. unfold log. repeat quiet_step.
  - intros e. apply carries_token_quiet. unfold log. repeat quiet_step.
Qed.

Lemma get_post_views_carries_token (media_id : pyval) (username : string) :
  adds (carries_token access_token)
    (get_post_views w media_id access_token username).
Proof.
  unfold get_post_views.
  apply carries_token_bind.
  { apply carries_token_quiet. unfold log. repeat quiet_step. }
  intros _. apply carries_token_try_except.
  - apply carries_token_bind.
    + now apply make_api_request_carries_token.
    + intros data. apply carries_token_quiet. unfold log. repeat quiet_step.
  - intros e. apply carries_token_quiet. unfold log. repeat quiet_step.
Qed.

Lemma for_each_post_carries_token (username : string) (posts : list pyval) :
  forall total n,
    adds (carries_token access_token)
      (for_each_post w access_token username posts total n).
Proof.
  induction posts as [|post rest IH]; intros total n; simpl.
  - apply carries_token_quiet. repeat quiet_step.
  - apply carries_token_bind.
    { apply carries_token_quiet. repeat quiet_step. }
    intros media_id. apply carries_token_bind.
    { apply get_post_views_carries_token. }
    intros views. apply carries_token_bind.
    { apply carries_token_quiet. repeat quiet_step. }
    intros acc. apply carries_token_bind.
    { intros s. exists [Sleep pacing_delay]. split; [reflexivity|].
      repeat constructor. }
    intros _. apply IH.
Qed.

End Token.

(** X14. Every request a call of [get_average_impressions] sends, the one
    for the posts and each one for insights, carries the access token it was
    given as the query parameter [access_token]; this holds of runs that end
    in an exception as well. *)
Theorem every_request_carries_the_token (w : world) (access_token : string)
    (days : Z) (username : string) (s : state) :
  exists evs,
    trace (snd (get_average_impressions w access_token days username s))
    = trace s ++ evs /\
    carries_token access_token evs.
Proof.
  revert s.
  change (adds (carries_token access_token)
            (get_average_impressions w access_token days username)).
  unfold get_average_impressions.
  apply carries_token_bind.
  { apply carries_token_quiet. unfold log. repeat quiet_step. }
  intros _. apply carries_token_try_except.
  - apply carries_token_bind; [apply get_user_posts_carries_token|].
    intros posts. apply carries_token_bind.
    { apply carries_token_quiet. repeat quiet_step. }
    intros items. apply carries_token_bind;
      [apply for_each_post_carries_token|].
    intros acc. apply carries_token_quiet. unfold log. repeat quiet_step.
  - intros e. apply carries_token_quiet. unfold log. repeat quiet_step.
Qed.

(** ** A failed request for the posts *)

(** X15. When the request for the posts ends in [ThreadsApiError],
    [get_average_impressions] makes no lookup and does not sleep: it returns
    [None] after the warning "No valid posts found ...", exactly as for an
    account without posts, and that one request is all it has sent. *)
Theorem failed_posts_request_gives_None (w : world) (access_token : string)
    (days : Z) (username : string) (s : state) (since_date : string) :
  date_days_ago w days = Some since_date ->
  api_failure
    (fst (make_api_request w posts_url
            (posts_params since_date (date_today w) access_token) s)) ->
  fst (get_average_impressions w access_token days username s) = Ret PNone /\
  without_logs
    (trace (snd (get_average_impressions w access_token days username s)))
  = without_logs (trace s) ++
    [HttpGet posts_url (posts_params since_date (date_today w) access_token)] /\
  exists before,
    trace (snd (get_average_impressions w access_token days username s))
    = before ++ [Log WARNING (no_valid_posts username)].
Proof.
  intros Hd Hfail.
  assert (Hp : fst (get_user_posts w access_token days username
                      (entered username days s)) = Ret (PList [])).
  { apply (get_user_posts_degrades w access_token days username _ since_date Hd).
    unfold entered. now rewrite make_api_request_after_log. }
  destruct (get_user_posts w access_token days username (entered username days s))
    as [o s1] eqn:Hrun.
  simpl in Hp. subst o.
  rewrite (get_average_impressions_run w access_token days username s
             (PList []) (PInt 0) [] 0 s1 s1 Hrun eq_refl eq_refl).
  simpl. split; [reflexivity|]. split.
  - pose proof (get_user_posts_requests w access_token days username
                  (entered username days s)) as Hsent.
    rewrite Hrun, Hd in Hsent. simpl in Hsent.
    rewrite without_logs_app, Hsent, without_logs_app. simpl.
    now rewrite !app_nil_r.
  - now exists (trace s1).
Qed.

Lemma failed_posts_request_gives_None_witness :
  fst (get_average_impressions world_views_refused "token" 7 "konomi_bura" init)
  = Ret PNone.
Proof.
  apply (failed_posts_request_gives_None world_views_refused "token" 7
           "konomi_bura" init "2024-05-01" eq_refl).
  eexists. vm_compute. reflexivity.
Defined.

(** ** The entry point *)

(** X16. The [__main__] block catches nothing: an exception of
    [get_average_impressions] leaves the program as it is, with nothing
    logged after it.  When the block comes to its end, the trace ends in one
    of two ways: the INFO record of the average found followed by the INFO
    record "Average Impressions ... over the last 7 days", or the WARNING
    "No valid posts found ..." followed by the ERROR
    "Failed to retrieve average impressions ..." (so a run without data is
    reported at ERROR by the entry point). *)
Theorem main_closing_records (w : world) (s : state) :
  (forall e s',
     get_average_impressions w main_access_token main_days main_username s
     = (Raise e, s') ->
     main w s = (Raise e, s')) /\
  (forall s',
     main w s = (Ret tt, s') ->
     (exists before q n,
        trace s'
        = before ++
          [Log INFO (average_found main_username (PFloat q) n);
           Log INFO (average_line main_username main_days (PFloat q))]) \/
     (exists before,
        trace s'
        = before ++
          [Log WARNING (no_valid_posts main_username);
           Log ERROR (failed_to_retrieve main_username)])).
Proof.
  split.
  - intros e s' H. unfold main, bind. now rewrite H.
  - intros s' H. unfold main, bind in H.
    destruct (get_average_impressions w main_access_token main_days
                main_username s) as [[r|e] s1] eqn:Hrun; [| discriminate].
    apply get_average_impressions_returns in Hrun
      as (posts & items & s0 & total & n & s2 & _ & _ & _ & Hend).
    destruct Hend as [(_ & Hdiv & ->)|(_ & -> & ->)].
    + apply truediv_returns_float in Hdiv as [q ->].
      simpl in H. injection H as <-. left.
      exists (trace s2), q, n. simpl. now rewrite <- app_assoc.
    + simpl in H. injection H as <-. right.
      exists (trace s2). simpl. now rewrite <- app_assoc.
Qed.

(** Without a network the program ends in [UnboundLocalError]. *)
Lemma main_closing_records_witness :
  fst (main world_offline init) = Raise UnboundLocalError.
Proof.
  generalize (proj1 (main_closing_records world_offline init)
                UnboundLocalError
                (snd (get_average_impressions world_offline main_access_token
                        main_days main_username init))).
  intros H. rewrite H; [reflexivity|].
  vm_compute. reflexivity.
Defined.

(** ** Views of any type *)

Section AnyViews.

Variable w : world.
Variables (access_token : string) (days : Z) (username : string).

Lemma for_each_post_adds_all (posts : list pyval) :
  forall total n s outcomes s',
    view_lookups w access_token username posts s = (Ret outcomes, s') ->
    fst (for_each_post w access_token username posts total n s)
    = Py.pure_bind (add_all total (present outcomes))
        (fun t => Ret (t, n + Z.of_nat (List.length (present outcomes)))).
Proof.
  induction posts as [|post rest IH]; intros total n s outcomes s' H.
  - simpl in H. injection H as <- <-. simpl. now rewrite Z.add_0_r.
  - simpl in H.
    apply bind_returns in H as (media_id & s1 & Hid & H).
    apply lift_returns in Hid as [Hid ->].
    apply bind_returns in H as (views & s2 & Hv & H).
    apply bind_returns in H as ([] & s3 & Hsl & H).
    apply bind_returns in H as (rest_outcomes & s4 & Hl & H).
    injection H as <- <-.
    simpl for_each_post. unfold bind at 1, lift. rewrite Hid.
    unfold bind at 1. rewrite Hv.
    unfold present. simpl filter.
    destruct (Py.is_not_None views).
    + unfold bind at 1. unfold bind at 1.
      simpl add_all. destruct (Py.add total views) as [t|e]; [| reflexivity].
      unfold ret at 1. cbv beta iota. unfold bind at 1. rewrite Hsl.
      cbn [fst snd Py.pure_bind]. rewrite (IH _ _ _ _ _ Hl).
      unfold present. simpl List.length. rewrite Nat2Z.inj_succ.
      destruct (add_all t _); simpl; [| reflexivity].
      do 2 f_equal. lia.
    + unfold bind at 1, ret at 1. unfold bind at 1. rewrite Hsl.
      cbn [fst snd]. exact (IH _ _ _ _ _ Hl).
Qed.

Lemma get_average_impressions_loop_raises (s s1 s2 : state) (posts : pyval)
    (items : list pyval) (e : exn) :
  get_user_posts w access_token days username (entered username days s)
  = (Ret posts, s1) ->
  Py.iter posts = Ret items ->
  for_each_post w access_token username items (PInt 0) 0 s1 = (Raise e, s2) ->
  get_average_impressions w access_token days username s = (Raise e, s2).
Proof.
  intros Hp Hi Hl.
  pose proof (raises_only_run _ _ _ _ _ Hl
                (for_each_post_absorbs w access_token username items _ _)) as T.
  unfold get_average_impressions, bind at 1. unfold log at 1, emit at 1.
  cbv beta iota.
  change (mkState (calls s) (trace s ++ [Log INFO (calculating username days)]))
    with (entered username days s).
  unfold try_except, bind at 1. rewrite Hp.
  unfold bind at 1, lift. rewrite Hi.
  unfold bind at 1. rewrite Hl. simpl in T. now rewrite T.
Qed.

End AnyViews.

(** X17. Whatever the types of the view counts: when the posts are fetched
    and every lookup returns, the present views (those that are not [None])
    are added from the left to the integer 0 with Python's [+] and the sum
    is divided by their number with Python's [/].  Booleans count as 0 and 1
    and floats make the sum a float; an addition or the division that raises
    ([TypeError] for a string, [OverflowError]) ends the run in that
    exception; no present view gives [None]. *)
Theorem average_of_any_views (w : world) (access_token : string) (days : Z)
    (username : string) (s : state) (posts : pyval) (items outcomes : list pyval)
    (s1 s2 : state) :
  get_user_posts w access_token days username (entered username days s)
  = (Ret posts, s1) ->
  Py.iter posts = Ret items ->
  view_lookups w access_token username items s1 = (Ret outcomes, s2) ->
  fst (get_average_impressions w access_token days username s)
  = Py.pure_bind (add_all (PInt 0) (present outcomes))
      (fun total =>
         match present outcomes with
         | [] => Ret PNone
         | _ => Py.truediv total
                  (PInt (Z.of_nat (List.length (present outcomes))))
         end).
Proof.
  intros Hp Hi Hl.
  pose proof (for_each_post_adds_all w access_token username items
                (PInt 0) 0 s1 outcomes s2 Hl) as Hloop.
  destruct (for_each_post w access_token username items (PInt 0) 0 s1)
    as [[[total n]|e] s3] eqn:Hrun; simpl in Hloop.
  - rewrite (get_average_impressions_run w access_token days username s
               posts total items n s1 s3 Hp Hi Hrun).
    destruct (add_all (PInt 0) (present outcomes)) as [t|e]; [| discriminate].
    simpl in Hloop. injection Hloop as -> ->. simpl.
    destruct (present outcomes) as [|v l]; [reflexivity|].
    replace (0 <? Z.of_nat (List.length (v :: l))) with true
      by (symmetry; apply Z.ltb_lt; simpl; lia).
    now destruct (Py.truediv _ _).
  - rewrite (get_average_impressions_loop_raises w access_token days username
               s s1 s3 posts items e Hp Hi Hrun).
    destruct (add_all (PInt 0) (present outcomes)) as [t|e0]; [discriminate|].
    simpl in Hloop. now injection Hloop as <-.
Qed.

(** Views [true, 2.5]: the sum is the float 3.5 and the average 1.75. *)
Lemma average_of_any_views_witness :
  fst (get_average_impressions
         (scripted [ok (posts_body [post_record "17901"; post_record "17902"]);
                    ok (views_body (PBool true));
                    ok (views_body (PFloat (S754_finite false 5629499534213120 (-51))))])
         "token" 7 "konomi_bura" init)
  = Ret (PFloat (S754_finite false 7881299347898368 (-52))).
Proof.
  erewrite (average_of_any_views
              (scripted [ok (posts_body [post_record "17901";
                                         post_record "17902"]);
                         ok (views_body (PBool true));
                         ok (views_body (PFloat (S754_finite false 5629499534213120 (-51))))])
              "token" 7 "konomi_bura" init _ _
              [PBool true; PFloat (S754_finite false 5629499534213120 (-51))]).
  2: vm_compute; reflexivity.
  2: reflexivity.
  2: vm_compute; reflexivity.
  vm_compute. reflexivity.
Defined.

(** ** Post records *)

(** X18. The [id] of a post is read before anything is done for it.  When
    the next post is an object without an [id] member the run ends in
    [KeyError], and when it is no object at all (a string, a number, a list,
    null) in [TypeError]; in both cases in the state the posts before it
    left, with no request made and no sleep taken for it, and the posts
    after it are not visited. *)
Theorem post_without_usable_id (w : world) (access_token username : string)
    (before rest : list pyval) (post : pyval) (outcomes : list pyval)
    (a n : Z) (s s1 : state) :
  view_lookups w access_token username before s = (Ret outcomes, s1) ->
  Forall optional_int outcomes ->
  ((exists members,
      post = PDict members /\ Py.dict_lookup members "id" = None) ->
   for_each_post w access_token username (before ++ post :: rest) (PInt a) n s
   = (Raise KeyError, s1)) /\
  (match post with
   | PDict _ => False
   | _ => True
   end ->
   for_each_post w access_token username (before ++ post :: rest) (PInt a) n s
   = (Raise TypeError, s1)).
Proof.
  intros Hl Hall.
  assert (H : forall e,
             Py.getitem post (Py.KStr "id") = Raise e ->
             for_each_post w access_token username (before ++ post :: rest)
               (PInt a) n s
             = (Raise e, s1)).
  { intros e Hid. rewrite for_each_post_concat.
    rewrite (for_each_post_sums w access_token username before a n s
               outcomes s1 Hl Hall).
    cbn [fst snd]. simpl for_each_post.
    unfold bind at 1, lift. now rewrite Hid. }
  split.
  - intros (members & -> & Hm). apply H. simpl. now rewrite Hm.
  - intros Hp. apply H. destruct post; simpl; now try contradiction.
Qed.

(** Two posts, the second a bare string: one lookup, one sleep, then
    [TypeError]. *)
Lemma post_without_usable_id_witness :
  fst (for_each_post (scripted [ok (views_body (PInt 100))]) "token"
         "konomi_bura" ([post_record "17901"] ++ PStr "17902" :: [])
         (PInt 0) 0 init)
  = Raise TypeError /\
  requests (trace (snd (for_each_post (scripted [ok (views_body (PInt 100))])
                          "token" "konomi_bura"
                          ([post_record "17901"] ++ PStr "17902" :: [])
                          (PInt 0) 0 init)))
  = 1%nat.
Proof.
  assert (Hl : view_lookups (scripted [ok (views_body (PInt 100))]) "token"
                 "konomi_bura" [post_record "17901"] init
               = (Ret [PInt 100],
                  snd (view_lookups (scripted [ok (views_body (PInt 100))])
                         "token" "konomi_bura" [post_record "17901"] init)))
    by (vm_compute; reflexivity).
  assert (Hall : Forall optional_int [PInt 100])
    by (apply Forall_cons; [right; now exists 100 | apply Forall_nil]).
  rewrite (proj2 (post_without_usable_id
                    (scripted [ok (views_body (PInt 100))]) "token"
                    "konomi_bura" [post_record "17901"] [] (PStr "17902")
                    [PInt 100] 0 0 init _ Hl Hall) I).
  split; vm_compute; reflexivity.
Defined.
